(** * Outreach assistant: store adapter, delivery adapter and campaign loop

    A shallow embedding of [google_sheets.py], [message_generator.py],
    [sender.py] and [main.py], and the properties of the outreach
    specification stated over it.

    Python [str] values are modelled as [string] over the code points
    0..255; the character classes below are Python's, restricted to that
    range.  Log lines are not part of the model. *)

From Stdlib Require Import Ascii.
From Stdlib Require String.
From stdpp Require Import base strings list gmap.

Local Open Scope char_scope.
Local Open Scope stdpp_scope.

(** ** Python string primitives *)

Module Py.

Definition between (lo hi c : ascii) : bool :=
  Ascii.leb lo c && Ascii.leb c hi.

(** [str.isspace] on one character, also the class [\s] of [re]. *)
Definition isspace (c : ascii) : bool :=
  between "009" "013" c || between "028" "032" c
  || Ascii.eqb c "133" || Ascii.eqb c "160".

(** [str.isdigit] on one character: the decimal digits and the
    superscripts one, two and three. *)
Definition isdigit_char (c : ascii) : bool :=
  between "0" "9" c
  || Ascii.eqb c "178" || Ascii.eqb c "179" || Ascii.eqb c "185".

Definition is_upper (c : ascii) : bool :=
  between "A" "Z" c
  || (between "192" "222" c && negb (Ascii.eqb c "215")).

Definition lower_char (c : ascii) : ascii :=
  if is_upper c then ascii_of_nat (nat_of_ascii c + 32) else c.

Fixpoint all_chars (p : ascii -> bool) (s : string) : bool :=
  match s with
  | EmptyString => true
  | String c s' => p c && all_chars p s'
  end.

Fixpoint has_char (c : ascii) (s : string) : bool :=
  match s with
  | EmptyString => false
  | String d s' => Ascii.eqb c d || has_char c s'
  end.

(** [s.isdigit()]: every character is a digit and there is at least one. *)
Definition isdigit (s : string) : bool :=
  match s with
  | EmptyString => false
  | _ => all_chars isdigit_char s
  end.

(** [s.lower()] *)
Fixpoint lower (s : string) : string :=
  match s with
  | EmptyString => EmptyString
  | String c s' => String (lower_char c) (lower s')
  end.

Fixpoint lstrip (s : string) : string :=
  match s with
  | EmptyString => EmptyString
  | String c s' => if isspace c then lstrip s' else s
  end.

Fixpoint rstrip (s : string) : string :=
  match s with
  | EmptyString => EmptyString
  | String c s' =>
      match rstrip s' with
      | EmptyString => if isspace c then EmptyString else String c EmptyString
      | r => String c r
      end
  end.

(** [s.strip()] *)
Definition strip (s : string) : string := rstrip (lstrip s).

(** [s.startswith(p)] *)
Fixpoint startswith (p s : string) : bool :=
  match p, s with
  | EmptyString, _ => true
  | String a p', String b s' => Ascii.eqb a b && startswith p' s'
  | String _ _, EmptyString => false
  end.

(** [len(s)] *)
Definition len (s : string) : nat := String.length s.

(** [re.sub(cls, '', s)] for a pattern [cls] that is one character class:
    every character of the class is deleted. *)
Fixpoint re_sub_class (cls : ascii -> bool) (s : string) : string :=
  match s with
  | EmptyString => EmptyString
  | String c s' =>
      if cls c then re_sub_class cls s' else String c (re_sub_class cls s')
  end.

(** Truth value of a string: non-empty. *)
Definition truthy (s : string) : bool :=
  match s with EmptyString => false | _ => true end.

End Py.

(** ** Regular expressions, as far as [re.match] is used *)

Module Re.

Inductive regex : Type :=
| Void
| Eps
| Class (p : ascii -> bool)
| Seq (r1 r2 : regex)
| Or (r1 r2 : regex)
| Star (r : regex).

(** [r+] and [r{2,}] *)
Definition Plus (r : regex) : regex := Seq r (Star r).
Definition AtLeast2 (r : regex) : regex := Seq r (Seq r (Star r)).
Definition Chr (c : ascii) : regex := Class (Ascii.eqb c).

(** [$] outside MULTILINE mode: the end of the string, or just before a
    newline that ends the string. *)
Definition Dollar : regex := Or Eps (Chr "010").

Fixpoint nullable (r : regex) : bool :=
  match r with
  | Void => false
  | Eps => true
  | Class _ => false
  | Seq r1 r2 => nullable r1 && nullable r2
  | Or r1 r2 => nullable r1 || nullable r2
  | Star _ => true
  end.

Fixpoint deriv (c : ascii) (r : regex) : regex :=
  match r with
  | Void => Void
  | Eps => Void
  | Class p => if p c then Eps else Void
  | Seq r1 r2 =>
      if nullable r1
      then Or (Seq (deriv c r1) r2) (deriv c r2)
      else Seq (deriv c r1) r2
  | Or r1 r2 => Or (deriv c r1) (deriv c r2)
  | Star r1 => Seq (deriv c r1) (Star r1)
  end.

(** The whole of [s] is matched by [r]. *)
Fixpoint fullmatch (r : regex) (s : string) : bool :=
  match s with
  | EmptyString => nullable r
  | String c s' => fullmatch (deriv c r) s'
  end.

(** The language of a regular expression. *)
Inductive Lang : regex -> string -> Prop :=
| LEps : Lang Eps EmptyString
| LClass p c : p c = true -> Lang (Class p) (String c EmptyString)
| LSeq r1 r2 s1 s2 : Lang r1 s1 -> Lang r2 s2 -> Lang (Seq r1 r2) (s1 +:+ s2)
| LOrL r1 r2 s : Lang r1 s -> Lang (Or r1 r2) s
| LOrR r1 r2 s : Lang r2 s -> Lang (Or r1 r2) s
| LStarNil r : Lang (Star r) EmptyString
| LStarApp r s1 s2 :
    Lang r s1 -> Lang (Star r) s2 -> Lang (Star r) (s1 +:+ s2).

End Re.

(** ** External services: events, state and the exception monad *)

Module Fx.

(** One entry per call that leaves the process. *)
Inductive Event : Type :=
| SheetsGet (sheet_name range_name : string)
| SheetsUpdate (sheet_name : string) (row_number : nat) (status : string)
| GenerateContent (prompt : string)
| SmtpSend (from to subject body : string)
| TwilioCreate (body from_ to : string)
| Sleep (seconds : nat).

(** The spreadsheet: for each tab, the rows that [values().get] returns. *)
Record State : Type := mkState {
  trace : list Event;
  store : gmap string (list (list string))
}.

Inductive outcome (A : Type) : Type :=
| Ok (a : A)
| Raise (e : string).
Arguments Ok {A} a.
Arguments Raise {A} e.

(** Effects done before an exception stay done. *)
Definition M (A : Type) : Type := State -> State * outcome A.

Definition ret {A} (a : A) : M A := fun st => (st, Ok a).

Definition bind {A B} (m : M A) (k : A -> M B) : M B :=
  fun st =>
    match m st with
    | (st', Ok a) => k a st'
    | (st', Raise e) => (st', Raise e)
    end.

Definition log (ev : Event) (st : State) : State :=
  mkState (trace st ++ [ev]) (store st).

Inductive ApiResult : Type :=
| ApiText (text : string)
| ApiRaise (e : string).

Inductive TwilioResult : Type :=
| TwilioSent
| TwilioException (e : string)
| OtherException (e : string).

(** What the outside world answers to a call, given everything that has
    been done so far (the call itself included).  [None] for the three
    fallible calls means that the call went through. *)
Record World : Type := mkWorld {
  sheets_get_error : list Event -> option string;
  sheets_update_error : list Event -> option string;
  generate_content : list Event -> ApiResult;
  smtp_error : list Event -> option string;
  twilio_create : list Event -> TwilioResult
}.

(** Assignment to cell E of one row; the grid grows as far as needed. *)
Definition write_E (status : string) (row : list string) : list string :=
  if decide (4 < length row)
  then <[4 := status]> row
  else row ++ replicate (4 - length row) "" ++ [status].

Definition write_row_E (index : nat) (status : string)
    (values : list (list string)) : list (list string) :=
  if decide (index < length values)
  then alter (write_E status) index values
  else values ++ replicate (index - length values) [] ++ [write_E status []].

Definition no_such_tab : string := "HttpError: Unable to parse range".

(** [service.spreadsheets().values().get(...).execute()] and
    [result.get('values', [])].  The rows of the tab are handed over whole:
    [read_leads] looks at their first five cells only, the ones that the
    range A:E keeps. *)
Definition sheets_get (w : World) (sheet_name range_name : string)
    : M (list (list string)) :=
  fun st =>
    let st1 := log (SheetsGet sheet_name range_name) st in
    match sheets_get_error w (trace st1) with
    | Some e => (st1, Raise e)
    | None =>
        match store st1 !! sheet_name with
        | Some values => (st1, Ok values)
        | None => (st1, Raise no_such_tab)
        end
    end.

(** [service.spreadsheets().values().update(...).execute()] on the range
    [sheet_name!E{row_number}] *)
Definition sheets_update (w : World) (sheet_name : string)
    (row_number : nat) (status : string) : M unit :=
  fun st =>
    let st1 := log (SheetsUpdate sheet_name row_number status) st in
    match sheets_update_error w (trace st1) with
    | Some e => (st1, Raise e)
    | None =>
        match store st1 !! sheet_name, row_number with
        | Some values, S index =>
            (mkState (trace st1)
               (<[sheet_name := write_row_E index status values]> (store st1)),
             Ok tt)
        | _, _ => (st1, Raise no_such_tab)
        end
    end.

Definition sleep (seconds : nat) : M unit :=
  fun st => (log (Sleep seconds) st, Ok tt).

(** [try: m except Exception as e: ...]: the exception is handed to the
    caller as a value. *)
Definition attempt {A} (m : M A) : M (outcome A) :=
  fun st => let '(st', r) := m st in (st', Ok r).

End Fx.

Import Fx.

#[global] Instance M_ret : MRet M := @Fx.ret.
#[global] Instance M_bind : MBind M := fun A B k m => Fx.bind m k.

(** ** google_sheets.py *)

Record Lead : Type := mkLead {
  row_number : nat;
  name : string;
  contact : string;
  interest : string;
  region : string;
  status : string
}.

#[global] Instance Lead_eq_dec : EqDecision Lead.
Proof. solve_decision. Defined.

Module GoogleSheetsManager.

Definition default_sheet_name : string := "outreach_leads".
Definition default_range_name : string := "A:E".

(** [while len(row) < len(headers): row.append("")] *)
Definition pad (headers row : list string) : list string :=
  row ++ replicate (length headers - length row) "".

(** [row[k] if len(row) > k else dflt] *)
Definition cell (row : list string) (k : nat) (dflt : string) : string :=
  match row !! k with
  | Some x => x
  | None => dflt
  end.

Definition make_lead (headers : list string) (i : nat) (row : list string)
    : Lead :=
  let row := pad headers row in
  {| row_number := i;
     name := cell row 0 "";
     contact := cell row 1 "";
     interest := cell row 2 "";
     region := cell row 3 "";
     status := cell row 4 "Pending" |}.

(** [for i, row in enumerate(rows, start=i)] *)
Fixpoint leads_from (headers : list string) (i : nat)
    (rows : list (list string)) : list Lead :=
  match rows with
  | [] => []
  | row :: rest => make_lead headers i row :: leads_from headers (S i) rest
  end.

(** The body of [read_leads] after the fetch. *)
Definition leads_of_values (values : list (list string)) : list Lead :=
  match values with
  | [] => []
  | headers :: rows => leads_from headers 2 rows
  end.

Definition read_leads (w : World) (sheet_name range_name : string)
    : M (list Lead) :=
  values ← sheets_get w sheet_name range_name;
  mret (leads_of_values values).

Definition update_lead_status (w : World) (row_number : nat)
    (status sheet_name : string) : M unit :=
  sheets_update w sheet_name row_number status.

Definition is_pending (lead : Lead) : Prop :=
  Py.lower (status lead) = "pending".

#[global] Instance is_pending_dec lead : Decision (is_pending lead).
Proof. unfold is_pending. apply _. Defined.

Definition get_pending_leads (w : World) (sheet_name : string)
    : M (list Lead) :=
  all_leads ← read_leads w sheet_name default_range_name;
  mret (filter is_pending all_leads).

End GoogleSheetsManager.

(** ** message_generator.py *)

Module MessageGenerator.

Definition nl : string := String "010" EmptyString.

Definition _create_prompt (lead : Lead) : string :=
  "You are an outreach assistant. Generate a friendly, professional WhatsApp or email message for a lead."
  +:+ nl +:+ nl
  +:+ "Lead Details:" +:+ nl
  +:+ "- Name: " +:+ name lead +:+ nl
  +:+ "- Region: " +:+ region lead +:+ nl
  +:+ "- Interest: " +:+ interest lead +:+ nl +:+ nl
  +:+ "Requirements:" +:+ nl
  +:+ "1. Greet the lead by name." +:+ nl
  +:+ "2. Mention their interest and region naturally." +:+ nl
  +:+ "3. Keep it under 80 words." +:+ nl
  +:+ "4. End with a clear call to action." +:+ nl +:+ nl
  +:+ "Return ONLY the message.".

(** Every exception of the call is caught and turned into [None]. *)
Definition generate_message (w : World) (lead : Lead) : M (option string) :=
  fun st =>
    let st1 := log (GenerateContent (_create_prompt lead)) st in
    match generate_content w (trace st1) with
    | ApiText text =>
        if Py.truthy text then (st1, Ok (Some (Py.strip text)))
        else (st1, Ok None)
    | ApiRaise _ => (st1, Ok None)
    end.

Definition test_failed : string := "Test failed - no message generated".

Definition test_generation (w : World) (sample_lead : Lead) : M string :=
  message ← generate_message w sample_lead;
  match message with
  | Some text => if Py.truthy text then mret text else mret test_failed
  | None => mret test_failed
  end.

End MessageGenerator.

(** ** sender.py *)

Record Sender : Type := mkSender {
  gmail_user : string;
  twilio_whatsapp_number : string
}.

(** What the outside world answers to the calls that neither read nor write
    leads, generate nor deliver: the two handshakes of [test_connection],
    given everything done so far, and the construction of the clients at
    start-up.  [None] means that the call went through; these calls leave no
    entry in the trace. *)
Record Probes : Type := mkProbes {
  gmail_login_error : list Event -> option string;
  twilio_fetch_error : list Event -> option string;
  sheets_auth_error : option string;
  other_init_error : option string
}.

Module MessageSender.

Definition alnum (c : ascii) : bool :=
  Py.between "a" "z" c || Py.between "A" "Z" c || Py.between "0" "9" c.

(** [[a-zA-Z0-9._%+-]] *)
Definition local_class (c : ascii) : bool :=
  alnum c || Ascii.eqb c "." || Ascii.eqb c "_" || Ascii.eqb c "%"
  || Ascii.eqb c "+" || Ascii.eqb c "-".

(** [[a-zA-Z0-9.-]] *)
Definition domain_class (c : ascii) : bool :=
  alnum c || Ascii.eqb c "." || Ascii.eqb c "-".

(** [[a-zA-Z]] *)
Definition alpha_class (c : ascii) : bool :=
  Py.between "a" "z" c || Py.between "A" "Z" c.

(** [^[a-zA-Z0-9._%+-]+@[a-zA-Z0-9.-]+\.[a-zA-Z]{2,}$] *)
Definition email_pattern : Re.regex :=
  Re.Seq (Re.Plus (Re.Class local_class))
    (Re.Seq (Re.Chr "@")
       (Re.Seq (Re.Plus (Re.Class domain_class))
          (Re.Seq (Re.Chr ".")
             (Re.Seq (Re.AtLeast2 (Re.Class alpha_class)) Re.Dollar)))).

Definition _is_email (contact : string) : bool :=
  Re.fullmatch email_pattern contact.

(** [[\s\-\(\)\+]] *)
Definition phone_noise (c : ascii) : bool :=
  Py.isspace c || Ascii.eqb c "-" || Ascii.eqb c "(" || Ascii.eqb c ")"
  || Ascii.eqb c "+".

Definition _is_phone_number (contact : string) : bool :=
  let cleaned := Py.re_sub_class phone_noise contact in
  Py.isdigit cleaned
  && Nat.leb 10 (Py.len cleaned) && Nat.leb (Py.len cleaned) 15.

(** [[\s\-\(\)]] *)
Definition whatsapp_noise (c : ascii) : bool :=
  Py.isspace c || Ascii.eqb c "-" || Ascii.eqb c "(" || Ascii.eqb c ")".

(** [s[0] in cs] for a non-empty [s] *)
Definition first_in (cs : list ascii) (s : string) : bool :=
  match s with
  | String c _ => bool_decide (c ∈ cs)
  | EmptyString => false
  end.

(** The block "Format phone number for WhatsApp" of [_send_whatsapp]:
    the value of [phone] after it. *)
Definition format_phone (phone : string) : string :=
  if Py.startswith "+" phone then phone
  else
    let cleaned_phone := Py.re_sub_class whatsapp_noise phone in
    if Py.startswith "91" cleaned_phone && Nat.eqb (Py.len cleaned_phone) 12
    then "+" +:+ cleaned_phone
    else if Nat.eqb (Py.len cleaned_phone) 10
            && first_in ["6"%char; "7"%char; "8"%char; "9"%char] cleaned_phone
    then "+91" +:+ cleaned_phone
    else if Nat.eqb (Py.len cleaned_phone) 10
    then "+1" +:+ cleaned_phone
    else "+" +:+ cleaned_phone.

Definition _send_email (w : World) (self : Sender) (lead : Lead)
    (message email : string) : M (bool * string) :=
  fun st =>
    let st1 :=
      log (SmtpSend (gmail_user self) email
             ("Hello " +:+ name lead +:+ "!") message) st in
    match smtp_error w (trace st1) with
    | None =>
        (st1, Ok (true, "Email sent successfully to " +:+ name lead
                        +:+ " (" +:+ email +:+ ")"))
    | Some e =>
        (st1, Ok (false, "Failed to send email to " +:+ name lead
                         +:+ " (" +:+ email +:+ "): " +:+ e))
    end.

Definition _send_whatsapp (w : World) (self : Sender) (lead : Lead)
    (message phone : string) : M (bool * string) :=
  fun st =>
    let phone := format_phone phone in
    let whatsapp_to := "whatsapp:" +:+ phone in
    let st1 :=
      log (TwilioCreate message (twilio_whatsapp_number self) whatsapp_to)
        st in
    match twilio_create w (trace st1) with
    | TwilioSent =>
        (st1, Ok (true, "WhatsApp sent successfully to " +:+ name lead
                        +:+ " (" +:+ phone +:+ ")"))
    | TwilioException e =>
        (st1, Ok (false, "Failed to send WhatsApp to " +:+ name lead
                         +:+ " (" +:+ phone +:+ "): " +:+ e))
    | OtherException e =>
        (st1, Ok (false, "Unexpected error sending WhatsApp to "
                         +:+ name lead +:+ " (" +:+ phone +:+ "): " +:+ e))
    end.

Definition test_mode_detail : string :=
  "Test mode - message not actually sent".

Definition send_message (w : World) (self : Sender) (lead : Lead)
    (message : string) (test_mode : bool) : M (bool * string) :=
  if test_mode then mret (true, test_mode_detail)
  else
    let contact := Py.strip (contact lead) in
    if _is_email contact then _send_email w self lead message contact
    else if _is_phone_number contact
    then _send_whatsapp w self lead message contact
    else mret (false, "Invalid contact format for " +:+ name lead
                      +:+ ": " +:+ contact).

(** The dictionary [results], with its two keys ['gmail'] and ['twilio']. *)
Definition test_connection (p : Probes) : M (bool * bool) :=
  fun st =>
    let gmail :=
      match gmail_login_error p (trace st) with None => true | Some _ => false end in
    let twilio :=
      match twilio_fetch_error p (trace st) with None => true | Some _ => false end in
    (st, Ok (gmail, twilio)).

End MessageSender.

(** ** main.py *)

Module OutreachAssistant.

Import GoogleSheetsManager MessageGenerator MessageSender.

(** [not message] for the result of [generate_message] *)
Definition absent (message : option string) : bool :=
  match message with
  | None => true
  | Some text => negb (Py.truthy text)
  end.

(** [if not test_mode: update_lead_status(row_number, status)]; the call
    leaves the sheet name to its default. *)
Definition mark (w : World) (test_mode : bool) (lead : Lead)
    (status : string) : M unit :=
  if test_mode then mret tt
  else update_lead_status w (row_number lead) status default_sheet_name.

(** One turn of the loop of [run_outreach_campaign], from the counters
    before it to the counters after it. *)
Definition process_lead (w : World) (self : Sender) (test_mode : bool)
    (lead : Lead) (counts : nat * nat) : M (nat * nat) :=
  let '(success_count, error_count) := counts in
  message ← generate_message w lead;
  if absent message then
    _ ← mark w test_mode lead "Error";
    mret (success_count, error_count + 1)
  else
    '(success, result_msg) ←
      send_message w self lead (default "" message) test_mode;
    counts' ←
      (if success : bool then
         _ ← mark w test_mode lead "Sent";
         mret (success_count + 1, error_count)
       else
         _ ← mark w test_mode lead "Error";
         mret (success_count, error_count + 1));
    _ ← sleep 1;
    mret counts'.

Fixpoint campaign_loop (w : World) (self : Sender) (test_mode : bool)
    (leads : list Lead) (counts : nat * nat) : M (nat * nat) :=
  match leads with
  | [] => mret counts
  | lead :: rest =>
      counts' ← process_lead w self test_mode lead counts;
      campaign_loop w self test_mode rest counts'
  end.

(** The result is the tally of the closing log line, or [None] when the
    function returns before the counters exist. *)
Definition run_outreach_campaign (w : World) (self : Sender)
    (test_mode : bool) (sheet_name : string) : M (option (nat * nat)) :=
  pending_leads ← get_pending_leads w sheet_name;
  match pending_leads with
  | [] => mret None
  | _ =>
      counts ← campaign_loop w self test_mode pending_leads (0, 0);
      mret (Some counts)
  end.

Definition is_failed (lead : Lead) : Prop :=
  Py.lower (status lead) = "error".

#[global] Instance is_failed_dec lead : Decision (is_failed lead).
Proof. unfold is_failed. apply _. Defined.

Fixpoint reset_loop (w : World) (failed_leads : list Lead) : M unit :=
  match failed_leads with
  | [] => mret tt
  | lead :: rest =>
      _ ← update_lead_status w (row_number lead) "Pending"
            default_sheet_name;
      reset_loop w rest
  end.

(** The result is the number of leads reported as reset. *)
Definition retry_failed_leads (w : World) (sheet_name : string) : M nat :=
  all_leads ← read_leads w sheet_name default_range_name;
  let failed_leads := filter is_failed all_leads in
  match failed_leads with
  | [] => mret 0
  | _ =>
      _ ← reset_loop w failed_leads;
      mret (length failed_leads)
  end.

(** What [test_connections] reports, line by line: the number of leads
    found when the spreadsheet answered, and success or failure for the
    generation API, Gmail and Twilio. *)
Record Report : Type := mkReport {
  sheets_leads : option nat;
  gemini_ok : bool;
  gmail_ok : bool;
  twilio_ok : bool
}.

(** The sample lead has the three keys that the prompt reads. *)
Definition sample_lead : Lead :=
  mkLead 0 "Test User" "" "Test Interest" "Test Region" "".

Definition test_connections (w : World) (p : Probes) : M Report :=
  leads ← attempt (read_leads w default_sheet_name default_range_name);
  message ← attempt (test_generation w sample_lead);
  connection_results ← test_connection p;
  mret {| sheets_leads :=
            match leads with Ok leads => Some (length leads) | Raise _ => None end;
          gemini_ok :=
            match message with Ok text => Py.truthy text | Raise _ => false end;
          gmail_ok := connection_results.1;
          twilio_ok := connection_results.2 |}.

Definition required_vars : list string :=
  ["GOOGLE_SHEETS_CREDENTIALS"; "SPREADSHEET_ID"; "GEMINI_API_KEY";
   "GMAIL_USER"; "GMAIL_APP_PASSWORD"; "TWILIO_ACCOUNT_SID";
   "TWILIO_AUTH_TOKEN"; "TWILIO_WHATSAPP_NUMBER"].

(** [missing_vars] after the loop of [_load_environment], for the
    environment as [load_dotenv] leaves it. *)
Definition missing_vars (env : gmap string string) : list string :=
  filter (fun var => absent (env !! var) = true) required_vars.

(** The exit code of [sys.exit], or [None] when the function returns. *)
Definition _load_environment (env : gmap string string) : option nat :=
  match missing_vars env with
  | [] => None
  | _ => Some 1
  end.

(** The exit code of [sys.exit] when a constructor raises, or the sender
    built from the environment. *)
Definition _initialize_components (p : Probes) (env : gmap string string)
    : nat + Sender :=
  match sheets_auth_error p, other_init_error p with
  | None, None =>
      inr (mkSender (default "" (env !! "GMAIL_USER"))
             (default "" (env !! "TWILIO_WHATSAPP_NUMBER")))
  | _, _ => inl 1
  end.

Module Args.
Record t : Type := mk {
  test : bool;
  test_connections : bool;
  retry_failed : bool;
  sheet_name : string
}.
End Args.

(** The exit code of the process, without the keyboard interrupt. *)
Definition main (w : World) (p : Probes) (env : gmap string string)
    (args : Args.t) : State -> State * nat :=
  fun st =>
    match _load_environment env with
    | Some code => (st, code)
    | None =>
        match _initialize_components p env with
        | inl code => (st, code)
        | inr self =>
            let action : M unit :=
              if Args.test_connections args then
                _ ← test_connections w p; mret tt
              else if Args.retry_failed args then
                _ ← retry_failed_leads w (Args.sheet_name args); mret tt
              else
                _ ← run_outreach_campaign w self (Args.test args)
                      (Args.sheet_name args);
                mret tt in
            match action st with
            | (st', Ok _) => (st', 0)
            | (st', Raise _) => (st', 1)
            end
        end
    end.

End OutreachAssistant.

(** ** reset_status.py *)

Module ResetStatus.

Import GoogleSheetsManager.

(** The result is the line printed. *)
Definition reset_lead_status (w : World) (p : Probes) : M string :=
  match sheets_auth_error p with
  | Some e => mret ("Error: " +:+ e)
  | None =>
      r ← attempt (update_lead_status w 3 "Pending" default_sheet_name);
      match r with
      | Ok _ => mret "Successfully reset Abhishek's status to 'Pending'"
      | Raise e => mret ("Error: " +:+ e)
      end
  end.

End ResetStatus.

(** ** Notions of the specification *)

Module Spec.

(** Follows the specification, not the code: the digits of a contact are
    what is left after stripping whitespace, dashes, parentheses and plus
    signs (the phone classification), and normalization goes by
    (a) a leading plus: as is; (b) digits starting with 91, of length 12:
    plus prefixed; (c) ten digits, the first one of 6, 7, 8, 9: +91
    prefixed; (d) ten digits otherwise: +1 prefixed; (e) else: plus
    prefixed. *)
Definition digits (contact : string) : string :=
  Py.re_sub_class MessageSender.phone_noise contact.

Definition normalize (contact : string) : string :=
  if Py.startswith "+" contact then contact
  else if Py.startswith "91" (digits contact)
          && Nat.eqb (Py.len (digits contact)) 12
  then "+" +:+ digits contact
  else if Nat.eqb (Py.len (digits contact)) 10
          && MessageSender.first_in ["6"%char; "7"%char; "8"%char; "9"%char]
               (digits contact)
  then "+91" +:+ digits contact
  else if Nat.eqb (Py.len (digits contact)) 10
  then "+1" +:+ digits contact
  else "+" +:+ digits contact.

(** Case-insensitive equality of two status strings. *)
Definition same_ignoring_case (a b : string) : Prop :=
  Py.lower a = Py.lower b.

(** What a bulk reset is to do to one lead: a lead whose status is "Error"
    up to case goes back to "Pending", any other lead stays as it is. *)
Definition set_status (status : string) (lead : Lead) : Lead :=
  mkLead (row_number lead) (name lead) (contact lead) (interest lead)
    (region lead) status.

Definition reset (lead : Lead) : Lead :=
  if decide (same_ignoring_case (status lead) "Error")
  then set_status "Pending" lead
  else lead.

(** Calls that write a status, and calls that deliver a message. *)
Definition is_status_write (ev : Event) : Prop :=
  match ev with
  | SheetsUpdate _ _ _ => True
  | _ => False
  end.

Definition is_network_send (ev : Event) : Prop :=
  match ev with
  | SmtpSend _ _ _ _ | TwilioCreate _ _ _ => True
  | _ => False
  end.

(** The three ways [send] can go, told apart by what leaves the process:
    one SMTP session, one messaging-API call, or nothing at all together
    with a failure result. *)
Inductive Path : Type := EmailSend | PhoneSend | ImmediateFailure.

Definition took (p : Path) (before : State)
    (res : State * outcome (bool * string)) : Prop :=
  match p with
  | EmailSend =>
      exists from to subject body,
        trace res.1 = trace before ++ [SmtpSend from to subject body]
  | PhoneSend =>
      exists body from to,
        trace res.1 = trace before ++ [TwilioCreate body from to]
  | ImmediateFailure =>
      res.1 = before /\ exists detail, res.2 = Ok (false, detail)
  end.

(** A character that is not whitespace. *)
Definition printable (c : ascii) : bool := negb (Py.isspace c).

(** A delivery call carries a message that is not empty. *)
Definition has_body (ev : Event) : Prop :=
  match ev with
  | SmtpSend _ _ _ body | TwilioCreate body _ _ => body <> ""
  | _ => True
  end.

(** The prompts of the generation calls of a trace, in order. *)
Fixpoint prompts (tr : list Event) : list string :=
  match tr with
  | [] => []
  | GenerateContent prompt :: tr' => prompt :: prompts tr'
  | _ :: tr' => prompts tr'
  end.

(** The status writes of a trace, in order: tab, row number, status. *)
Fixpoint status_writes (tr : list Event) : list (string * nat * string) :=
  match tr with
  | [] => []
  | SheetsUpdate sheet_name row_number status :: tr' =>
      (sheet_name, row_number, status) :: status_writes tr'
  | _ :: tr' => status_writes tr'
  end.

Definition is_store_call (ev : Event) : Prop :=
  match ev with
  | SheetsGet _ _ | SheetsUpdate _ _ _ => True
  | _ => False
  end.

End Spec.

(** ** Sample data for the scenarios *)

Module Sample.

(** A world in which every call goes through. *)
Definition calm : World :=
  mkWorld (fun _ => None) (fun _ => None)
    (fun _ => ApiText "Hello, shall we talk?")
    (fun _ => None) (fun _ => TwilioSent).

(** A world in which the generation service is down. *)
Definition mute : World :=
  mkWorld (fun _ => None) (fun _ => None)
    (fun _ => ApiRaise "503 Service Unavailable")
    (fun _ => None) (fun _ => TwilioSent).

Definition sender : Sender :=
  mkSender "me@example.com" "whatsapp:+14155238886".

Definition headers : list string :=
  ["name"; "contact"; "interest"; "region"; "status"].

Definition start (tabs : gmap string (list (list string))) : State :=
  mkState [] tabs.

(** Handshakes and start-up that go through. *)
Definition open_doors : Probes :=
  mkProbes (fun _ => None) (fun _ => None) None None.

Definition env : gmap string string :=
  {[ "GOOGLE_SHEETS_CREDENTIALS" := "credentials.json";
     "SPREADSHEET_ID" := "sheet-1";
     "GEMINI_API_KEY" := "key";
     "GMAIL_USER" := "me@example.com";
     "GMAIL_APP_PASSWORD" := "secret";
     "TWILIO_ACCOUNT_SID" := "sid";
     "TWILIO_AUTH_TOKEN" := "token";
     "TWILIO_WHATSAPP_NUMBER" := "whatsapp:+14155238886" ]}.

End Sample.

(** * Properties *)

(** ** Strings and regular expressions *)

Section StringFacts.

Lemma app_String c s t : String c s +:+ t = String c (s +:+ t).
Proof. reflexivity. Qed.

Lemma app_empty_l s : "" +:+ s = s.
Proof. reflexivity. Qed.

Lemma has_char_app c s t :
  Py.has_char c (s +:+ t) = Py.has_char c s || Py.has_char c t.
Proof.
  induction s as [|d s IH]; [reflexivity|].
  rewrite app_String. cbn [Py.has_char]. rewrite IH. apply orb_assoc.
Qed.

Lemma has_char_here c s : Py.has_char c (String c s) = true.
Proof. cbn. now rewrite Ascii.eqb_refl. Qed.

(** A character outside the deleted class survives [re.sub]. *)
Lemma has_char_re_sub cls c s :
  cls c = false ->
  Py.has_char c (Py.re_sub_class cls s) = Py.has_char c s.
Proof.
  intros Hc. induction s as [|d s IH]; [reflexivity|].
  cbn [Py.re_sub_class Py.has_char].
  destruct (cls d) eqn:Hd.
  - rewrite IH. destruct (Ascii.eqb_spec c d) as [->|]; [congruence|reflexivity].
  - cbn [Py.has_char]. now rewrite IH.
Qed.

Lemma all_chars_has_char p c s :
  Py.has_char c s = true -> p c = false -> Py.all_chars p s = false.
Proof.
  intros Hin Hp. induction s as [|d s IH]; [discriminate|].
  cbn in Hin |- *. destruct (Ascii.eqb_spec c d) as [<-|].
  - now rewrite Hp.
  - cbn in Hin. rewrite (IH Hin). apply andb_false_r.
Qed.

Lemma isdigit_has_char c s :
  Py.has_char c s = true -> Py.isdigit_char c = false ->
  Py.isdigit s = false.
Proof.
  intros Hin Hp. destruct s; [reflexivity|].
  apply (all_chars_has_char _ c); assumption.
Qed.

(** Deleting a larger class that differs only by characters the string
    does not have gives the same result. *)
Lemma re_sub_class_ext cls1 cls2 s :
  (forall c, Py.has_char c s = true -> cls1 c = cls2 c) ->
  Py.re_sub_class cls1 s = Py.re_sub_class cls2 s.
Proof.
  induction s as [|d s IH]; intros H; [reflexivity|].
  cbn [Py.re_sub_class].
  rewrite (H d (has_char_here d s)).
  rewrite IH; [reflexivity|].
  intros c Hc. apply H. cbn. rewrite Hc. apply orb_true_r.
Qed.

Lemma startswith_plus_app s : Py.startswith "+" ("+" +:+ s) = true.
Proof. reflexivity. Qed.

End StringFacts.

Section RegexFacts.

Import Re.

Lemma nullable_sound r : nullable r = true -> Lang r "".
Proof.
  induction r as [| |p|r1 IH1 r2 IH2|r1 IH1 r2 IH2|r IH]; cbn; intros H;
    try discriminate.
  - constructor.
  - apply andb_prop in H as [H1 H2].
    change "" with ("" +:+ ""). constructor; auto.
  - apply orb_prop in H as [H|H]; [apply LOrL | apply LOrR]; auto.
  - constructor.
Qed.

Lemma deriv_sound c r : forall s, Lang (deriv c r) s -> Lang r (String c s).
Proof.
  induction r as [| |p|r1 IH1 r2 IH2|r1 IH1 r2 IH2|r IH]; cbn; intros s H.
  - inversion H.
  - inversion H.
  - destruct (p c) eqn:Hp; inversion H; subst. now constructor.
  - assert (Hseq : forall t, Lang (Seq (deriv c r1) r2) t ->
                             Lang (Seq r1 r2) (String c t)).
    { intros t Ht. inversion Ht; subst.
      rewrite <- app_String. constructor; auto. }
    destruct (nullable r1) eqn:Hn; [|auto].
    inversion H; subst; [auto|].
    rewrite <- (app_empty_l (String c s)).
    constructor; [now apply nullable_sound | auto].
  - inversion H; subst; [apply LOrL | apply LOrR]; auto.
  - inversion H; subst. rewrite <- app_String. constructor; auto.
Qed.

(** A successful match puts the string in the language of the pattern. *)
Lemma fullmatch_sound s : forall r, fullmatch r s = true -> Lang r s.
Proof.
  induction s as [|c s IH]; cbn; intros r H.
  - now apply nullable_sound.
  - apply deriv_sound, IH, H.
Qed.

Lemma Lang_Chr c s : Lang (Chr c) s -> s = String c "".
Proof.
  unfold Chr. intros H. inversion H; subst.
  match goal with E : Ascii.eqb _ _ = true |- _ =>
    apply Ascii.eqb_eq in E; now subst end.
Qed.

Lemma Lang_Seq_inv r1 r2 s :
  Lang (Seq r1 r2) s -> exists s1 s2, s = s1 +:+ s2 /\ Lang r1 s1 /\ Lang r2 s2.
Proof. intros H. inversion H; subst. eauto. Qed.

End RegexFacts.

(** ** Delivery adapter *)

Section SenderFacts.

Import MessageSender.

Lemma email_has_at contact :
  _is_email contact = true -> Py.has_char "@" contact = true.
Proof.
  intros H. apply fullmatch_sound in H. unfold email_pattern in H.
  apply Lang_Seq_inv in H as (s1 & s2 & -> & _ & H).
  apply Lang_Seq_inv in H as (s3 & s4 & -> & H & _).
  apply Lang_Chr in H as ->.
  rewrite has_char_app, app_String, has_char_here. apply orb_true_r.
Qed.

(** The two shapes exclude each other: no string is both. *)
Lemma email_not_phone contact :
  _is_email contact = true -> _is_phone_number contact = false.
Proof.
  intros H. apply email_has_at in H. unfold _is_phone_number.
  rewrite (isdigit_has_char "@"); [reflexivity| |reflexivity].
  now rewrite has_char_re_sub.
Qed.

Lemma format_phone_plus phone :
  Py.startswith "+" (format_phone phone) = true.
Proof.
  unfold format_phone.
  destruct (Py.startswith "+" phone) eqn:E; [exact E|].
  repeat match goal with |- context [if ?b then _ else _] => destruct b end;
    reflexivity.
Qed.

Lemma format_phone_fixed phone :
  Py.startswith "+" phone = true -> format_phone phone = phone.
Proof. intros H. unfold format_phone. now rewrite H. Qed.

Lemma format_phone_idempotent phone :
  format_phone (format_phone phone) = format_phone phone.
Proof. apply format_phone_fixed, format_phone_plus. Qed.

Lemma noise_without_plus s :
  Py.has_char "+" s = false ->
  Py.re_sub_class whatsapp_noise s = Py.re_sub_class phone_noise s.
Proof.
  intros H. apply re_sub_class_ext. intros c Hc.
  unfold phone_noise, whatsapp_noise.
  destruct (Ascii.eqb_spec c "+") as [->|]; [congruence|].
  now rewrite orb_false_r.
Qed.

(** Where no plus sign can be left after cleaning, the code normalizes as
    the specification says. *)
Lemma format_phone_refines_spec contact :
  Py.startswith "+" contact = true \/ Py.has_char "+" contact = false ->
  format_phone contact = Spec.normalize contact.
Proof.
  intros [H|H]; unfold format_phone, Spec.normalize, Spec.digits.
  - now rewrite H.
  - now rewrite (noise_without_plus _ H).
Qed.

Lemma send_email_trace w self lead message email st :
  trace (_send_email w self lead message email st).1
  = trace st ++ [SmtpSend (gmail_user self) email
                   ("Hello " +:+ name lead +:+ "!") message].
Proof. unfold _send_email. now destruct (smtp_error w _). Qed.

Lemma send_whatsapp_trace w self lead message phone st :
  trace (_send_whatsapp w self lead message phone st).1
  = trace st ++ [TwilioCreate message (twilio_whatsapp_number self)
                   ("whatsapp:" +:+ format_phone phone)].
Proof. unfold _send_whatsapp. now destruct (twilio_create w _). Qed.

Lemma trace_grew (t : list Event) ev : t ++ [ev] <> t.
Proof.
  intros H. apply (f_equal length) in H.
  rewrite length_app in H. cbn in H. lia.
Qed.

Lemma took_functional p q st res :
  Spec.took p st res -> Spec.took q st res -> p = q.
Proof.
  destruct p, q; cbn; try reflexivity;
    repeat (intros [? ?]); intros;
    repeat match goal with
      | H : _ /\ _ |- _ => destruct H
      | H : ex _ |- _ => destruct H
      end;
    exfalso;
    try match goal with
      | H1 : trace ?r = _, H2 : trace ?r = _ |- _ =>
          rewrite H1 in H2; apply app_inv_head in H2; discriminate
      end;
    match goal with
    | H1 : trace ?r = _, H2 : ?r = _ |- _ =>
        rewrite H2 in H1; symmetry in H1; exact (trace_grew _ _ H1)
    end.
Qed.

(** C3. In a live send, exactly one of the three paths is taken: the
    email send when the stripped contact is email-shaped, the phone send
    when it is not email-shaped and is phone-shaped (the phone shape being
    consulted only then), and the immediate failure when it is neither. *)
Theorem send_message_one_path w self lead message st :
  let contact := Py.strip (contact lead) in
  let res := send_message w self lead message false st in
  (exists! p, Spec.took p st res)
  /\ (Spec.took Spec.EmailSend st res <-> _is_email contact = true)
  /\ (Spec.took Spec.PhoneSend st res <->
      _is_email contact = false /\ _is_phone_number contact = true)
  /\ (Spec.took Spec.ImmediateFailure st res <->
      _is_email contact = false /\ _is_phone_number contact = false).
Proof.
  intros contact res.
  assert (Hone : exists p, Spec.took p st res /\
            match p with
            | Spec.EmailSend => _is_email contact = true
            | Spec.PhoneSend =>
                _is_email contact = false /\ _is_phone_number contact = true
            | Spec.ImmediateFailure =>
                _is_email contact = false /\ _is_phone_number contact = false
            end).
  { subst res. unfold send_message. fold contact.
    destruct (_is_email contact) eqn:He;
      [|destruct (_is_phone_number contact) eqn:Hp].
    - exists Spec.EmailSend. split; [|reflexivity].
      cbn. do 4 eexists. apply send_email_trace.
    - exists Spec.PhoneSend. split; [|auto].
      cbn. do 3 eexists. apply send_whatsapp_trace.
    - exists Spec.ImmediateFailure. split; [|auto].
      cbn. split; [reflexivity|]. eexists. reflexivity. }
  destruct Hone as (p & Hp & Hshape).
  assert (Honly : forall q, Spec.took q st res -> q = p).
  { intros q Hq. exact (took_functional _ _ _ _ Hq Hp). }
  split; [exists p; split; [exact Hp | intros q Hq; symmetry; auto]|].
  split; [|split]; (split; intros Hq);
    try (apply Honly in Hq; subst p; tauto);
    destruct p; try exact Hp; exfalso;
    repeat match goal with H : _ /\ _ |- _ => destruct H end; congruence.
Qed.

(** The specification's scenarios: an email contact, and a contact that
    is neither. *)
Example send_jane_email st :
  _is_email "jane@example.com" = true
  /\ trace (send_message Sample.calm Sample.sender
              (mkLead 2 "Jane" "jane@example.com" "" "" "Pending") "hi"
              false st).1
     = trace st ++ [SmtpSend "me@example.com" "jane@example.com"
                      "Hello Jane!" "hi"].
Proof. split; reflexivity. Qed.

Example classification_samples :
  _is_email "jane@example.c" = false
  /\ _is_phone_number "+1 (555) 123-4567" = true
  /\ _is_phone_number "12345" = false
  /\ _is_phone_number "abc" = false
  /\ Py.strip "  a b  " = "a b"
  /\ Py.lower "PenDING" = "pending".
Proof. repeat split; reflexivity. Qed.

Example send_abc_fails w self st :
  send_message w self (mkLead 2 "Al" "abc" "" "" "Pending") "hi" false st
  = (st, Ok (false, "Invalid contact format for Al: abc")).
Proof. reflexivity. Qed.

(** C9. On the phone path the normalized number begins with a plus sign,
    whichever branch produced it, and the recipient handed to the
    messaging API is "whatsapp:" followed by that number. *)
Theorem phone_path_recipient w self lead message st :
  let contact := Py.strip (contact lead) in
  _is_email contact = false ->
  _is_phone_number contact = true ->
  Py.startswith "+" (format_phone contact) = true
  /\ trace (send_message w self lead message false st).1
     = trace st ++ [TwilioCreate message (twilio_whatsapp_number self)
                      ("whatsapp:" +:+ format_phone contact)].
Proof.
  intros contact He Hp. split; [apply format_phone_plus|].
  unfold send_message. fold contact. rewrite He, Hp.
  apply send_whatsapp_trace.
Qed.

Lemma phone_path_recipient_witness :
  Py.startswith "+" (format_phone "9876543210") = true
  /\ trace (send_message Sample.calm Sample.sender
              (mkLead 2 "Asha" " 9876543210 " "tea" "Pune" "Pending")
              "hi" false (Sample.start ∅)).1
     = [TwilioCreate "hi" "whatsapp:+14155238886" "whatsapp:+919876543210"].
Proof.
  exact (phone_path_recipient Sample.calm Sample.sender
           (mkLead 2 "Asha" " 9876543210 " "tea" "Pune" "Pending")
           "hi" (Sample.start ∅) eq_refl eq_refl).
Defined.

(** C8. Normalizing twice is normalizing once for a number that already
    starts with a plus sign. *)
Theorem format_phone_idempotent_on_plus x :
  Py.startswith "+" x = true ->
  format_phone (format_phone x) = format_phone x
  /\ format_phone x = x.
Proof.
  intros H. split; [apply format_phone_idempotent|].
  now apply format_phone_fixed.
Qed.

Lemma format_phone_idempotent_on_plus_witness :
  format_phone (format_phone "+91 98765 43210") = "+91 98765 43210"
  /\ format_phone "+91 98765 43210" = "+91 98765 43210".
Proof.
  exact (format_phone_idempotent_on_plus "+91 98765 43210" eq_refl).
Defined.

(** The two scenarios of the specification. *)
Example format_phone_indian : format_phone "9876543210" = "+919876543210".
Proof. reflexivity. Qed.

Example format_phone_us : format_phone "5551234567" = "+15551234567".
Proof. reflexivity. Qed.

(** C2, at a contact with a plus sign inside.  The contact is classified
    as a phone number, its digits are the twelve digits 919876543210, and
    the specification's precedence gives +919876543210; the code cleans
    without removing the plus sign, misses every branch but the last, and
    calls the messaging API with a number that starts with two plus
    signs. *)
Theorem format_phone_inner_plus w st :
  let lead := mkLead 2 "Asha" "(+91) 9876543210" "tea" "Pune" "Pending" in
  let contact := Py.strip (contact lead) in
  _is_email contact = false
  /\ _is_phone_number contact = true
  /\ Spec.digits contact = "919876543210"
  /\ Spec.normalize contact = "+919876543210"
  /\ format_phone contact = "++919876543210"
  /\ trace (send_message w Sample.sender lead "hi" false st).1
     = trace st ++ [TwilioCreate "hi" "whatsapp:+14155238886"
                      "whatsapp:++919876543210"].
Proof.
  intros lead contact. repeat split; try reflexivity.
  apply (send_whatsapp_trace w Sample.sender lead "hi" contact st).
Qed.

End SenderFacts.

(** ** Store adapter *)

Section SheetsFacts.

Import GoogleSheetsManager.

Lemma read_leads_run w sheet_name range_name st :
  read_leads w sheet_name range_name st
  = let st1 := log (SheetsGet sheet_name range_name) st in
    match sheets_get_error w (trace st1) with
    | Some e => (st1, Raise e)
    | None =>
        match store st !! sheet_name with
        | Some values => (st1, Ok (leads_of_values values))
        | None => (st1, Raise no_such_tab)
        end
    end.
Proof.
  unfold read_leads, mbind, M_bind, Fx.bind, sheets_get. cbn.
  destruct (sheets_get_error w _); [reflexivity|].
  now destruct (store st !! sheet_name).
Qed.

Lemma get_pending_leads_run w sheet_name st :
  get_pending_leads w sheet_name st
  = match read_leads w sheet_name default_range_name st with
    | (st', Ok all_leads) => (st', Ok (filter is_pending all_leads))
    | (st', Raise e) => (st', Raise e)
    end.
Proof. reflexivity. Qed.

(** The header row gives no lead, and the data rows are numbered from 2. *)
Lemma leads_from_length headers i rows :
  length (leads_from headers i rows) = length rows.
Proof.
  revert i. induction rows as [|row rows IH]; intros i; cbn; [reflexivity|].
  now rewrite IH.
Qed.

Lemma leads_from_lookup headers i rows k :
  leads_from headers i rows !! k = make_lead headers (i + k) <$> rows !! k.
Proof.
  revert i k. induction rows as [|row rows IH]; intros i [|k]; cbn;
    try reflexivity.
  - now rewrite Nat.add_0_r.
  - rewrite IH. now replace (S i + k) with (i + S k) by lia.
Qed.

Lemma leads_of_values_lookup headers rows k :
  leads_of_values (headers :: rows) !! k
  = make_lead headers (2 + k) <$> rows !! k.
Proof. apply leads_from_lookup. Qed.

(** Padding: a row shorter than the header row gets empty strings on the
    right up to the header's length; no other row changes. *)
Lemma pad_length headers row :
  length (pad headers row) = length row `max` length headers.
Proof. unfold pad. rewrite length_app, length_replicate. lia. Qed.

Lemma pad_lookup headers row k :
  pad headers row !! k
  = match row !! k with
    | Some x => Some x
    | None => if decide (k < length headers) then Some "" else None
    end.
Proof.
  unfold pad. destruct (row !! k) as [x|] eqn:E.
  - now rewrite (lookup_app_l_Some _ _ _ _ E).
  - apply lookup_ge_None in E.
    rewrite lookup_app_r by exact E.
    case_decide.
    + apply lookup_replicate_2. lia.
    + apply lookup_ge_None. rewrite length_replicate. lia.
Qed.

(** The status of a lead: the fifth cell of its row when the row has one;
    otherwise the empty string of the padding when the header row has five
    cells or more, and "Pending" only under a header row of fewer than
    five cells. *)
Lemma make_lead_status headers i row :
  status (make_lead headers i row)
  = match row !! 4 with
    | Some x => x
    | None => if decide (4 < length headers) then "" else "Pending"
    end.
Proof.
  cbn. unfold cell. rewrite pad_lookup.
  destruct (row !! 4); [reflexivity|]. now case_decide.
Qed.

(** C1, at a data row without a status cell under the usual five-column
    header row.  The row is padded to five cells first, so the lead's
    status is the empty string: the default "Pending" is not reached, and
    the lead is not among the pending ones. *)
Theorem read_leads_blank_status :
  let values := [Sample.headers; ["Bob"; "bob@example.com"; "AI"; "US"]] in
  let st := Sample.start {[default_sheet_name := values]} in
  (read_leads Sample.calm default_sheet_name default_range_name st).2
  = Ok [mkLead 2 "Bob" "bob@example.com" "AI" "US" ""]
  /\ (get_pending_leads Sample.calm default_sheet_name st).2 = Ok [].
Proof. split; reflexivity. Qed.

(** C4. When [get_pending_leads] returns, it returns the leads of the tab
    whose status is "Pending" up to case, and only those: a lead with any
    other status is left out. *)
Theorem get_pending_leads_pending_only w sheet_name st st' pending :
  get_pending_leads w sheet_name st = (st', Ok pending) ->
  exists values,
    store st !! sheet_name = Some values
    /\ pending = filter is_pending (leads_of_values values)
    /\ (forall lead, lead ∈ leads_of_values values ->
          ~ Spec.same_ignoring_case (status lead) "Pending" ->
          lead ∉ pending)
    /\ (forall lead, lead ∈ pending ->
          Spec.same_ignoring_case (status lead) "Pending").
Proof.
  rewrite get_pending_leads_run, read_leads_run. cbn zeta.
  destruct (sheets_get_error w _); [discriminate|].
  destruct (store st !! sheet_name) as [values|]; [|discriminate].
  intros [= _ <-]. exists values. repeat split.
  - intros lead _ Hne Hin. apply list_elem_of_filter in Hin as [Hp _].
    exact (Hne Hp).
  - intros lead Hin. apply list_elem_of_filter in Hin as [Hp _]. exact Hp.
Qed.

Lemma get_pending_leads_pending_only_witness :
  exists values,
    store (Sample.start {[default_sheet_name :=
             [Sample.headers;
              ["Ann"; "ann@example.com"; "AI"; "US"; "PENDING"];
              ["Bob"; "bob@example.com"; "AI"; "US"; "Sent"]]]})
      !! default_sheet_name = Some values
    /\ [mkLead 2 "Ann" "ann@example.com" "AI" "US" "PENDING"]
       = filter is_pending (leads_of_values values)
    /\ (forall lead, lead ∈ leads_of_values values ->
          ~ Spec.same_ignoring_case (status lead) "Pending" ->
          lead ∉ [mkLead 2 "Ann" "ann@example.com" "AI" "US" "PENDING"])
    /\ (forall lead,
          lead ∈ [mkLead 2 "Ann" "ann@example.com" "AI" "US" "PENDING"] ->
          Spec.same_ignoring_case (status lead) "Pending").
Proof.
  exact (get_pending_leads_pending_only Sample.calm default_sheet_name
           (Sample.start {[default_sheet_name :=
              [Sample.headers;
               ["Ann"; "ann@example.com"; "AI"; "US"; "PENDING"];
               ["Bob"; "bob@example.com"; "AI"; "US"; "Sent"]]]})
           _ _ eq_refl).
Defined.

End SheetsFacts.

(** ** Campaign orchestrator *)

Section CampaignFacts.

Import GoogleSheetsManager MessageGenerator MessageSender OutreachAssistant.

Ltac run_monad :=
  unfold mbind, M_bind, Fx.bind, mret, M_ret, Fx.ret in *.

Lemma generate_message_run w lead st :
  exists message,
    generate_message w lead st
    = (log (GenerateContent (_create_prompt lead)) st, Ok message).
Proof.
  unfold generate_message.
  destruct (generate_content w _) as [text|e]; [|eauto].
  destruct (Py.truthy text); eauto.
Qed.

(** Sending never raises and never touches the spreadsheet. *)
Lemma send_message_run w self lead message test_mode st :
  exists st' r,
    send_message w self lead message test_mode st = (st', Ok r)
    /\ store st' = store st.
Proof.
  unfold send_message, _send_email, _send_whatsapp. run_monad.
  repeat case_match; eauto.
Qed.

(** One turn of the loop adds one to exactly one of the two counters. *)
Lemma process_lead_counts w self test_mode lead s e st st' s' e' :
  process_lead w self test_mode lead (s, e) st = (st', Ok (s', e')) ->
  (s' = s + 1 /\ e' = e) \/ (s' = s /\ e' = e + 1).
Proof.
  unfold process_lead, mark, sleep. run_monad.
  intros H. repeat case_match; simplify_eq; auto.
Qed.

Lemma campaign_loop_nil w self test_mode counts st :
  campaign_loop w self test_mode [] counts st = (st, Ok counts).
Proof. reflexivity. Qed.

Lemma campaign_loop_cons w self test_mode lead rest counts st :
  campaign_loop w self test_mode (lead :: rest) counts st
  = match process_lead w self test_mode lead counts st with
    | (st1, Ok counts') => campaign_loop w self test_mode rest counts' st1
    | (st1, Raise e) => (st1, Raise e)
    end.
Proof. reflexivity. Qed.

Lemma campaign_loop_counts w self test_mode leads :
  forall s e st st' s' e',
    campaign_loop w self test_mode leads (s, e) st = (st', Ok (s', e')) ->
    s' + e' = s + e + length leads.
Proof.
  induction leads as [|lead rest IH]; intros s e st st' s' e'.
  - rewrite campaign_loop_nil. intros ?. simplify_eq. cbn. lia.
  - rewrite campaign_loop_cons.
    destruct (process_lead w self test_mode lead (s, e) st)
      as [st1 [[s1 e1]|err]] eqn:Hstep; [|discriminate].
    intros Hrest. apply IH in Hrest.
    apply process_lead_counts in Hstep. cbn. lia.
Qed.

Lemma run_outreach_campaign_run w self test_mode sheet_name st :
  run_outreach_campaign w self test_mode sheet_name st
  = let st1 := log (SheetsGet sheet_name default_range_name) st in
    match sheets_get_error w (trace st1) with
    | Some e => (st1, Raise e)
    | None =>
        match store st !! sheet_name with
        | None => (st1, Raise no_such_tab)
        | Some values =>
            match filter is_pending (leads_of_values values) with
            | [] => (st1, Ok None)
            | pending_leads =>
                match campaign_loop w self test_mode pending_leads (0, 0) st1
                with
                | (st2, Ok counts) => (st2, Ok (Some counts))
                | (st2, Raise e) => (st2, Raise e)
                end
            end
        end
    end.
Proof.
  unfold run_outreach_campaign.
  change ((get_pending_leads w sheet_name ≫= ?k) st)
    with (Fx.bind (get_pending_leads w sheet_name) k st).
  unfold Fx.bind at 1.
  rewrite get_pending_leads_run, read_leads_run. cbn zeta.
  destruct (sheets_get_error w _); [reflexivity|].
  destruct (store st !! sheet_name) as [values|]; [|reflexivity].
  destruct (filter is_pending (leads_of_values values)); [reflexivity|].
  run_monad. now destruct (campaign_loop _ _ _ _ _ _) as [? [|]].
Qed.

(** C10. A campaign run that comes to its end without an exception has
    counted every pending lead once: the two counters add up to the number
    of pending leads of the tab (no tally is made when there is none). *)
Theorem run_outreach_campaign_tally w self test_mode sheet_name st st' r :
  run_outreach_campaign w self test_mode sheet_name st = (st', Ok r) ->
  exists values,
    store st !! sheet_name = Some values
    /\ let n := length (filter is_pending (leads_of_values values)) in
       match r with
       | Some (success_count, error_count) => success_count + error_count = n
       | None => n = 0
       end.
Proof.
  rewrite run_outreach_campaign_run. cbn zeta.
  destruct (sheets_get_error w _); [discriminate|].
  destruct (store st !! sheet_name) as [values|]; [|discriminate].
  intros H. exists values. split; [reflexivity|]. cbn zeta.
  destruct (filter is_pending (leads_of_values values)) as [|lead rest] eqn:E.
  - now simplify_eq.
  - destruct (campaign_loop _ _ _ _ _ _) as [st2 [[s e]|err]] eqn:Hloop;
      [|discriminate].
    simplify_eq. apply campaign_loop_counts in Hloop.
    cbn in Hloop |- *. lia.
Qed.

Lemma run_outreach_campaign_tally_witness :
  exists values,
    store (Sample.start {[default_sheet_name :=
             [Sample.headers;
              ["Ann"; "ann@example.com"; "AI"; "US"; "Pending"];
              ["Bob"; "abc"; "AI"; "US"; "pending"]]]})
      !! default_sheet_name = Some values
    /\ 1 + 1 = length (filter is_pending (leads_of_values values)).
Proof.
  exact (run_outreach_campaign_tally Sample.calm Sample.sender false
           default_sheet_name
           (Sample.start {[default_sheet_name :=
              [Sample.headers;
               ["Ann"; "ann@example.com"; "AI"; "US"; "Pending"];
               ["Bob"; "abc"; "AI"; "US"; "pending"]]]})
           _ (Some (1, 1)) eq_refl).
Defined.

(** In test mode a turn of the loop cannot raise; it leaves the
    spreadsheet alone and calls nothing but the generation service and
    the delay. *)
Lemma process_lead_test_mode w self lead counts st :
  exists counts' evs,
    process_lead w self true lead counts st
    = (mkState (trace st ++ evs) (store st), Ok counts')
    /\ Forall (fun ev => ~ Spec.is_status_write ev
                         /\ ~ Spec.is_network_send ev) evs.
Proof.
  destruct counts as [s e]. unfold process_lead. run_monad.
  destruct (generate_message_run w lead st) as [message ->].
  cbn [mark send_message]. run_monad. unfold sleep, log. cbn.
  destruct (absent message); cbn.
  - do 2 eexists. split; [reflexivity|]. repeat constructor; cbn; tauto.
  - do 2 eexists. rewrite <- app_assoc. split; [reflexivity|].
    repeat constructor; cbn; tauto.
Qed.

Lemma campaign_loop_test_mode w self leads :
  forall counts st,
    exists counts' evs,
      campaign_loop w self true leads counts st
      = (mkState (trace st ++ evs) (store st), Ok counts')
      /\ Forall (fun ev => ~ Spec.is_status_write ev
                           /\ ~ Spec.is_network_send ev) evs.
Proof.
  induction leads as [|lead rest IH]; intros counts st.
  - exists counts, []. rewrite campaign_loop_nil, app_nil_r.
    now destruct st.
  - rewrite campaign_loop_cons.
    destruct (process_lead_test_mode w self lead counts st)
      as (c1 & evs1 & -> & H1).
    destruct (IH c1 (mkState (trace st ++ evs1) (store st)))
      as (c2 & evs2 & -> & H2).
    exists c2, (evs1 ++ evs2). cbn. rewrite app_assoc.
    split; [reflexivity|]. now apply Forall_app.
Qed.

(** C6. In test mode [send_message] makes no call at all and answers
    success with the detail that nothing was sent; and a campaign run in
    test mode leaves the spreadsheet as it was: none of its calls writes a
    status, and none delivers a message. *)
Theorem dry_run_no_effect w self lead message sheet_name st :
  send_message w self lead message true st
  = (st, Ok (true, "Test mode - message not actually sent"))
  /\ let res := run_outreach_campaign w self true sheet_name st in
     store res.1 = store st
     /\ exists evs,
          trace res.1 = trace st ++ evs
          /\ Forall (fun ev => ~ Spec.is_status_write ev
                               /\ ~ Spec.is_network_send ev) evs.
Proof.
  split; [reflexivity|].
  rewrite run_outreach_campaign_run. cbn zeta.
  assert (Hget : Forall (fun ev => ~ Spec.is_status_write ev
                                   /\ ~ Spec.is_network_send ev)
                   [SheetsGet sheet_name default_range_name])
    by (repeat constructor; cbn; tauto).
  assert (Hstop : forall r : outcome (option (nat * nat)),
            let res := (log (SheetsGet sheet_name default_range_name) st, r) in
            store res.1 = store st
            /\ exists evs,
                 trace res.1 = trace st ++ evs
                 /\ Forall (fun ev => ~ Spec.is_status_write ev
                                      /\ ~ Spec.is_network_send ev) evs).
  { intros r. cbn. split; [reflexivity|]. eexists. split; [reflexivity|].
    exact Hget. }
  destruct (sheets_get_error w _); [apply Hstop|].
  destruct (store st !! sheet_name) as [values|]; [|apply Hstop].
  destruct (filter is_pending (leads_of_values values)) as [|lead1 rest].
  - apply Hstop.
  - destruct (campaign_loop_test_mode w self (lead1 :: rest) (0, 0)
                (log (SheetsGet sheet_name default_range_name) st))
      as (c & evs & -> & Hevs).
    cbn. split; [reflexivity|].
    exists (SheetsGet sheet_name default_range_name :: evs).
    split; [now rewrite <- app_assoc|].
    constructor; [cbn; tauto | exact Hevs].
Qed.

(** *** Status writes *)

Lemma mark_test_mode w lead status st :
  mark w true lead status st = (st, Ok tt).
Proof. reflexivity. Qed.

Lemma mark_live_trace w lead status st :
  trace (mark w false lead status st).1
  = trace st ++ [SheetsUpdate default_sheet_name (row_number lead) status].
Proof.
  unfold mark, update_lead_status, sheets_update. cbn.
  repeat case_match; reflexivity.
Qed.

(** A status write that goes through changes cell E of the row of that
    number in the tab "outreach_leads", whatever tab the lead came from. *)
Lemma mark_live_store w lead status st st' :
  mark w false lead status st = (st', Ok tt) ->
  exists values index,
    row_number lead = S index
    /\ store st !! default_sheet_name = Some values
    /\ store st'
       = <[default_sheet_name := write_row_E index status values]> (store st).
Proof.
  unfold mark, update_lead_status, sheets_update. cbn.
  destruct (sheets_update_error w _); [discriminate|].
  destruct (store st !! default_sheet_name) as [values|]; [|discriminate].
  destruct (row_number lead) as [|index]; [discriminate|].
  intros ?. simplify_eq. eauto.
Qed.

Lemma write_E_lookup status row k :
  write_E status row !! k
  = if decide (k = 4) then Some status
    else match row !! k with
         | Some x => Some x
         | None => if decide (k < 4) then Some "" else None
         end.
Proof.
  unfold write_E. case_decide as Hlen.
  - case_decide as Hk.
    + subst. now apply list_lookup_insert_eq.
    + rewrite list_lookup_insert_ne by congruence.
      destruct (row !! k) eqn:E; [reflexivity|].
      apply lookup_ge_None in E. case_decide; [lia|reflexivity].
  - destruct (row !! k) as [x|] eqn:E.
    + apply lookup_lt_Some in E as Hlt.
      rewrite lookup_app_l by exact Hlt.
      case_decide; [lia|exact E].
    + apply lookup_ge_None in E.
      rewrite lookup_app_r by exact E.
      case_decide as Hk.
      * subst. rewrite lookup_app_r by (rewrite length_replicate; lia).
        rewrite length_replicate.
        now replace (4 - length row - (4 - length row)) with 0 by lia.
      * case_decide.
        -- rewrite lookup_app_l by (rewrite length_replicate; lia).
           apply lookup_replicate_2. lia.
        -- apply lookup_ge_None.
           rewrite length_app, length_replicate. cbn. lia.
Qed.

(** Writing cell E of a row changes the status of its lead and nothing
    else of it. *)
Lemma make_lead_write_E headers i status row :
  make_lead headers i (write_E status row)
  = Spec.set_status status (make_lead headers i row).
Proof.
  unfold make_lead, Spec.set_status, cell. cbn.
  rewrite !pad_lookup, !write_E_lookup. cbn.
  f_equal; destruct (row !! _);
    repeat case_decide; try lia; try discriminate; reflexivity.
Qed.

Lemma leads_from_alter headers status rows :
  forall i k,
    leads_from headers i (alter (write_E status) k rows)
    = alter (Spec.set_status status) k (leads_from headers i rows).
Proof.
  induction rows as [|row rows IH]; intros i [|k]; cbn; try reflexivity.
  - now rewrite make_lead_write_E.
  - now rewrite IH.
Qed.

(** On the tab "outreach_leads" itself, a status write that goes through
    sets the status of the lead it was made for, and of no other. *)
Lemma mark_own_row w headers rows k row status st st' :
  store st !! default_sheet_name = Some (headers :: rows) ->
  rows !! k = Some row ->
  mark w false (make_lead headers (2 + k) row) status st = (st', Ok tt) ->
  exists values',
    store st' !! default_sheet_name = Some values'
    /\ leads_of_values values'
       = alter (Spec.set_status status) k (leads_of_values (headers :: rows)).
Proof.
  intros Htab Hrow Hmark.
  apply mark_live_store in Hmark as (values & index & Hi & Hv & ->).
  cbn in Hi. simplify_eq. rewrite lookup_insert_eq. eexists. split; [reflexivity|].
  unfold write_row_E. apply lookup_lt_Some in Hrow.
  rewrite decide_True by (cbn; lia).
  cbn. apply leads_from_alter.
Qed.

(** *** Generation returns nothing *)

(** A turn of the loop for a lead without a message: the counters go from
    (s, e) to (s, e + 1), the only calls are the generation call and, off
    test mode, the status write of "Error" for the row number of the lead,
    and the loop goes on with the leads that are left.  An exception of
    the status write ends the run. *)
Lemma generation_absent_turn w self test_mode lead rest s e st message :
  let st1 := log (GenerateContent (_create_prompt lead)) st in
  generate_message w lead st = (st1, Ok message) ->
  absent message = true ->
  campaign_loop w self test_mode (lead :: rest) (s, e) st
  = match mark w test_mode lead "Error" st1 with
    | (st2, Ok _) => campaign_loop w self test_mode rest (s, e + 1) st2
    | (st2, Raise err) => (st2, Raise err)
    end
  /\ trace (mark w test_mode lead "Error" st1).1
     = trace st
       ++ GenerateContent (_create_prompt lead)
          :: (if test_mode then []
              else [SheetsUpdate default_sheet_name (row_number lead)
                      "Error"]).
Proof.
  intros st1 Hgen Habs. split.
  - rewrite campaign_loop_cons. unfold process_lead. run_monad.
    rewrite Hgen, Habs. now destruct (mark _ _ _ _ _) as [? [|]].
  - destruct test_mode.
    + reflexivity.
    + rewrite mark_live_trace. subst st1. cbn. now rewrite <- app_assoc.
Qed.

(** C5, in a live run on a tab other than "outreach_leads".  Generation
    fails for the one pending lead, Bob, in row 2 of the tab "leads_2024".
    The error is counted, nothing is sent and the run ends normally, but
    the status write goes to row 2 of the tab "outreach_leads": Bob is
    still "Pending", and the lead of that other tab, whose message had been
    sent, now reads "Error". *)
Theorem generation_absent_other_tab :
  let bob := ["Bob"; "bob@example.com"; "AI"; "US"; "Pending"] in
  let tabs : gmap string (list (list string)) :=
    {[ "leads_2024" := [Sample.headers; bob];
       default_sheet_name :=
         [Sample.headers; ["Al"; "al@example.com"; "tea"; "UK"; "Sent"]] ]} in
  let res :=
    run_outreach_campaign Sample.mute Sample.sender false "leads_2024"
      (Sample.start tabs) in
  res.2 = Ok (Some (0, 1))
  /\ trace res.1
     = [SheetsGet "leads_2024" "A:E";
        GenerateContent
          (_create_prompt (mkLead 2 "Bob" "bob@example.com" "AI" "US" "Pending"));
        SheetsUpdate "outreach_leads" 2 "Error"]
  /\ store res.1 !! "leads_2024" = Some [Sample.headers; bob]
  /\ store res.1 !! default_sheet_name
     = Some [Sample.headers; ["Al"; "al@example.com"; "tea"; "UK"; "Error"]].
Proof. vm_compute. repeat split; reflexivity. Qed.

(** *** Bulk reset *)

Lemma update_lead_status_ok w row_number status sheet_name st st' :
  update_lead_status w row_number status sheet_name st = (st', Ok tt) ->
  exists values index,
    row_number = S index
    /\ store st !! sheet_name = Some values
    /\ store st' = <[sheet_name := write_row_E index status values]> (store st)
    /\ trace st' = trace st ++ [SheetsUpdate sheet_name row_number status].
Proof.
  unfold update_lead_status, sheets_update. cbn.
  destruct (sheets_update_error w _); [discriminate|].
  destruct (store st !! sheet_name) as [values|]; [|discriminate].
  destruct row_number as [|index]; [discriminate|].
  intros ?. simplify_eq. cbn. eauto 10.
Qed.

Lemma reset_loop_cons w lead rest st :
  reset_loop w (lead :: rest) st
  = match update_lead_status w (row_number lead) "Pending"
            default_sheet_name st with
    | (st1, Ok _) => reset_loop w rest st1
    | (st1, Raise e) => (st1, Raise e)
    end.
Proof. reflexivity. Qed.

Lemma write_row_E_middle status headers pre row rest :
  write_row_E (S (length pre)) status (headers :: pre ++ row :: rest)
  = headers :: pre ++ write_E status row :: rest.
Proof.
  unfold write_row_E.
  rewrite decide_True by (cbn; rewrite length_app; cbn; lia).
  cbn. f_equal.
  replace (length pre) with (length pre + 0) at 1 by lia.
  now rewrite alter_app_r.
Qed.

Lemma reset_loop_rows w headers rows :
  forall pre st st',
    store st !! default_sheet_name = Some (headers :: pre ++ rows) ->
    reset_loop w (filter is_failed (leads_from headers (2 + length pre) rows))
      st = (st', Ok tt) ->
    store st'
    = <[default_sheet_name :=
          headers :: pre
          ++ map (fun row =>
                    if decide (is_failed (make_lead headers 0 row))
                    then write_E "Pending" row else row) rows]> (store st)
    /\ trace st'
       = trace st
         ++ map (fun l => SheetsUpdate default_sheet_name (row_number l)
                            "Pending")
              (filter is_failed (leads_from headers (2 + length pre) rows)).
Proof.
  induction rows as [|row rest IH]; intros pre st st' Htab Hrun.
  - cbn in Hrun. run_monad. simplify_eq. cbn. rewrite !app_nil_r in *.
    split; [|reflexivity]. symmetry. now apply insert_id.
  - cbn [leads_from map] in *.
    assert (Hnext : S (2 + length pre) = 2 + length (pre ++ [row]))
      by (rewrite length_app; cbn; lia).
    rewrite filter_cons in *.
    destruct (decide (is_failed (make_lead headers (2 + length pre) row)))
      as [Hf|Hf].
    + rewrite reset_loop_cons in Hrun.
      destruct (update_lead_status _ _ _ _ _) as [st1 [[]|err]] eqn:Hup;
        [|discriminate].
      apply update_lead_status_ok in Hup
        as (values & index & Hi & Hv & Hstore & Htrace).
      cbn in Hi. simplify_eq. rewrite write_row_E_middle in Hstore.
      destruct (IH (pre ++ [write_E "Pending" row]) st1 st') as [IHs IHt].
      * rewrite Hstore, lookup_insert_eq. now rewrite <- app_assoc.
      * rewrite length_app. cbn.
        now replace (length pre + 1) with (S (length pre)) by lia.
      * rewrite decide_True by exact Hf. split.
        -- rewrite IHs, Hstore, insert_insert_eq. now rewrite <- app_assoc.
        -- rewrite IHt, Htrace, <- app_assoc. cbn. repeat f_equal.
           rewrite length_app. cbn. lia.
    + rewrite Hnext in Hrun.
      destruct (IH (pre ++ [row]) st st') as [IHs IHt].
      * now rewrite <- app_assoc.
      * exact Hrun.
      * rewrite decide_False by exact Hf. split.
        -- rewrite IHs. now rewrite <- app_assoc.
        -- rewrite IHt, Hnext. reflexivity.
Qed.

Lemma leads_from_reset headers rows :
  forall i,
    leads_from headers i
      (map (fun row =>
              if decide (is_failed (make_lead headers 0 row))
              then write_E "Pending" row else row) rows)
    = map Spec.reset (leads_from headers i rows).
Proof.
  induction rows as [|row rest IH]; intros i; [reflexivity|].
  cbn [map leads_from]. rewrite IH. f_equal.
  unfold Spec.reset.
  destruct (decide (is_failed (make_lead headers 0 row))) as [Hf|Hf].
  - rewrite make_lead_write_E. now rewrite decide_True by exact Hf.
  - now rewrite decide_False by exact Hf.
Qed.

Lemma retry_failed_leads_run w sheet_name st :
  retry_failed_leads w sheet_name st
  = let st1 := log (SheetsGet sheet_name default_range_name) st in
    match sheets_get_error w (trace st1) with
    | Some e => (st1, Raise e)
    | None =>
        match store st !! sheet_name with
        | None => (st1, Raise no_such_tab)
        | Some values =>
            match filter is_failed (leads_of_values values) with
            | [] => (st1, Ok 0)
            | failed_leads =>
                match reset_loop w failed_leads st1 with
                | (st2, Ok _) => (st2, Ok (length failed_leads))
                | (st2, Raise e) => (st2, Raise e)
                end
            end
        end
    end.
Proof.
  unfold retry_failed_leads.
  change ((read_leads w sheet_name default_range_name ≫= ?k) st)
    with (Fx.bind (read_leads w sheet_name default_range_name) k st).
  unfold Fx.bind at 1. rewrite read_leads_run. cbn zeta.
  destruct (sheets_get_error w _); [reflexivity|].
  destruct (store st !! sheet_name) as [values|]; [|reflexivity].
  destruct (filter is_failed (leads_of_values values)); [reflexivity|].
  run_monad. now destruct (reset_loop _ _ _) as [? [|]].
Qed.

(** On the tab "outreach_leads" the bulk reset does what is asked of it:
    when it returns, it has made one status write of "Pending" per lead
    whose status is "Error" up to case, in row order and no other write,
    and the leads of the tab are the former ones with exactly those reset;
    the number it reports is the number of such leads. *)
Lemma retry_failed_leads_default_tab w st st' n :
  retry_failed_leads w default_sheet_name st = (st', Ok n) ->
  exists values values',
    store st !! default_sheet_name = Some values
    /\ n = length (filter is_failed (leads_of_values values))
    /\ trace st'
       = trace st
         ++ SheetsGet default_sheet_name default_range_name
            :: map (fun l => SheetsUpdate default_sheet_name (row_number l)
                               "Pending")
                 (filter is_failed (leads_of_values values))
    /\ store st' = <[default_sheet_name := values']> (store st)
    /\ leads_of_values values' = map Spec.reset (leads_of_values values).
Proof.
  rewrite retry_failed_leads_run. cbn zeta.
  destruct (sheets_get_error w _); [discriminate|].
  destruct (store st !! default_sheet_name) as [values|] eqn:Htab;
    [|discriminate].
  set (st1 := log (SheetsGet default_sheet_name default_range_name) st).
  intros Hrun.
  assert (Hloop : reset_loop w (filter is_failed (leads_of_values values)) st1
                  = (st', Ok tt)
                  /\ n = length (filter is_failed (leads_of_values values))).
  { destruct (filter is_failed (leads_of_values values)) as [|l fl].
    - now simplify_eq.
    - destruct (reset_loop w (l :: fl) st1) as [st2 [[]|err]];
        [|discriminate].
      now simplify_eq. }
  clear Hrun. destruct Hloop as [Hloop ->].
  destruct values as [|headers rows].
  - cbn in Hloop. run_monad. simplify_eq. exists [], []. cbn.
    repeat split; try reflexivity. symmetry. now apply insert_id.
  - apply (reset_loop_rows w headers rows []) in Hloop as [Hs Ht];
      [|exact Htab].
    eexists _, _. split; [reflexivity|]. split; [reflexivity|].
    split; [|split; [exact Hs|]].
    + rewrite Ht. subst st1. cbn. now rewrite <- app_assoc.
    + cbn. apply leads_from_reset.
Qed.

(** The scenario of the specification, on the tab "outreach_leads": three
    leads with status "Error" and two with status "Pending". *)
Example retry_three_of_five :
  let row n s := [n; "x@example.com"; "AI"; "US"; s] in
  let tabs : gmap string (list (list string)) :=
    {[ default_sheet_name :=
         [Sample.headers; row "A" "Error"; row "B" "Pending";
          row "C" "ERROR"; row "D" "Pending"; row "E" "error"] ]} in
  let res :=
    retry_failed_leads Sample.calm default_sheet_name (Sample.start tabs) in
  res.2 = Ok 3
  /\ trace res.1
     = [SheetsGet "outreach_leads" "A:E";
        SheetsUpdate "outreach_leads" 2 "Pending";
        SheetsUpdate "outreach_leads" 4 "Pending";
        SheetsUpdate "outreach_leads" 6 "Pending"]
  /\ store res.1 !! default_sheet_name
     = Some [Sample.headers; row "A" "Pending"; row "B" "Pending";
             row "C" "Pending"; row "D" "Pending"; row "E" "Pending"].
Proof. vm_compute. repeat split; reflexivity. Qed.

(** C7, on a tab other than "outreach_leads".  The tab "leads_2024" holds
    three leads with status "Error" and two with status "Pending".  The
    reset reports three leads, but its three status writes go to rows 2, 4
    and 6 of the tab "outreach_leads": the three failed leads keep their
    status, and three delivered leads of the other tab are set back to
    "Pending". *)
Theorem retry_failed_other_tab :
  let row n s := [n; "x@example.com"; "AI"; "US"; s] in
  let failed :=
    [Sample.headers; row "A" "Error"; row "B" "Pending"; row "C" "ERROR";
     row "D" "Pending"; row "E" "error"] in
  let tabs : gmap string (list (list string)) :=
    {[ "leads_2024" := failed;
       default_sheet_name :=
         [Sample.headers; row "P" "Sent"; row "Q" "Sent"; row "R" "Sent";
          row "S" "Sent"; row "T" "Sent"] ]} in
  let res := retry_failed_leads Sample.calm "leads_2024" (Sample.start tabs) in
  res.2 = Ok 3
  /\ trace res.1
     = [SheetsGet "leads_2024" "A:E";
        SheetsUpdate "outreach_leads" 2 "Pending";
        SheetsUpdate "outreach_leads" 4 "Pending";
        SheetsUpdate "outreach_leads" 6 "Pending"]
  /\ store res.1 !! "leads_2024" = Some failed
  /\ store res.1 !! default_sheet_name
     = Some [Sample.headers; row "P" "Pending"; row "Q" "Sent";
             row "R" "Pending"; row "S" "Sent"; row "T" "Pending"].
Proof. vm_compute. repeat split; reflexivity. Qed.

End CampaignFacts.

(** * Further properties of the code *)

(** ** Reading and writing leads *)

Section StoreRoundTrip.

Import GoogleSheetsManager.

Lemma leads_from_row_numbers headers rows :
  forall i, row_number <$> leads_from headers i rows = seq i (length rows).
Proof.
  induction rows as [|row rows IH]; intros i; cbn; [reflexivity|].
  now rewrite IH.
Qed.

(** X1. The leads read from a tab carry the row numbers 2, 3, ... in
    order, one per data row: no two leads share a row number, and an empty
    tab or a tab with a header row only gives no lead. *)
Theorem leads_row_numbers values :
  row_number <$> leads_of_values values = seq 2 (length values - 1)
  /\ NoDup (row_number <$> leads_of_values values).
Proof.
  assert (H : row_number <$> leads_of_values values
              = seq 2 (length values - 1)).
  { destruct values as [|headers rows]; [reflexivity|].
    cbn. rewrite Nat.sub_0_r. apply leads_from_row_numbers. }
  split; [exact H|]. rewrite H. apply NoDup_seq.
Qed.

Lemma cell_take row k dflt :
  k < 5 -> cell (take 5 row) k dflt = cell row k dflt.
Proof. intros Hk. unfold cell. now rewrite lookup_take_lt by exact Hk. Qed.

Lemma make_lead_take headers i row :
  make_lead (take 5 headers) i (take 5 row) = make_lead headers i row.
Proof.
  unfold make_lead, cell. cbn. rewrite !pad_lookup.
  rewrite !lookup_take_lt by lia. rewrite length_take.
  f_equal; destruct (row !! _); try reflexivity;
    repeat case_decide; try lia; reflexivity.
Qed.

Lemma leads_from_take headers rows :
  forall i,
    leads_from (take 5 headers) i (take 5 <$> rows) = leads_from headers i rows.
Proof.
  induction rows as [|row rows IH]; intros i; [reflexivity|].
  rewrite fmap_cons. cbn [leads_from].
  now rewrite make_lead_take, IH.
Qed.

(** X2. Only the columns A to E of a tab matter to the leads read from
    it: cutting every row, the header row included, to its first five
    cells gives the same leads. *)
Theorem leads_of_values_first_five values :
  leads_of_values (take 5 <$> values) = leads_of_values values.
Proof.
  destruct values as [|headers rows]; [reflexivity|].
  rewrite fmap_cons. apply leads_from_take.
Qed.

(** X3. The fields of a lead, without the padding: name, contact,
    interest and region are the first four cells of the row, each the
    empty string when the row has no such cell; the status is the fifth
    cell, and for a row without one it is the empty string when the header
    row has five cells or more, and "Pending" otherwise. *)
Theorem make_lead_fields headers i row :
  make_lead headers i row
  = mkLead i (default "" (row !! 0)) (default "" (row !! 1))
      (default "" (row !! 2)) (default "" (row !! 3))
      (match row !! 4 with
       | Some x => x
       | None => if decide (4 < length headers) then "" else "Pending"
       end).
Proof.
  unfold make_lead, cell. cbn. rewrite !pad_lookup.
  f_equal; destruct (row !! _); try reflexivity;
    repeat case_decide; reflexivity.
Qed.



End StoreRoundTrip.

(** ** Contact shapes and phone numbers *)

Section ContactShapes.

Import MessageSender.

(** X5. No contact is both email-shaped and phone-shaped, so the order in
    which [send_message] tries the two shapes decides nothing. *)
Theorem no_contact_has_both_shapes contact :
  ~ (_is_email contact = true /\ _is_phone_number contact = true).
Proof.
  intros [He Hp]. apply email_not_phone in He. congruence.
Qed.

Lemma all_chars_re_sub noise p s :
  Py.all_chars p (Py.re_sub_class noise s)
  = Py.all_chars (fun c => noise c || p c) s.
Proof.
  induction s as [|c s IH]; [reflexivity|].
  cbn [Py.re_sub_class Py.all_chars].
  destruct (noise c); cbn [Py.all_chars orb andb]; now rewrite IH.
Qed.

Lemma isdigit_all_chars s :
  Py.isdigit s = Py.truthy s && Py.all_chars Py.isdigit_char s.
Proof. now destruct s. Qed.

Lemma len_truthy s : 1 <= Py.len s -> Py.truthy s = true.
Proof. destruct s; cbn; [lia|reflexivity]. Qed.

Lemma phone_shape_cleaned contact :
  _is_phone_number contact = true
  <-> Py.all_chars Py.isdigit_char (Py.re_sub_class phone_noise contact) = true
      /\ 10 <= Py.len (Py.re_sub_class phone_noise contact) <= 15.
Proof.
  unfold _is_phone_number. rewrite isdigit_all_chars.
  rewrite !andb_true_iff, !Nat.leb_le. split.
  - intros [[[_ Hd] Hlo] Hhi]. auto.
  - intros (Hd & [Hlo Hhi]). repeat split; auto.
    apply len_truthy. lia.
Qed.

(** X6. The phone shape, character by character: a contact is
    phone-shaped exactly when each of its characters is a digit or one of
    whitespace, dash, parenthesis and plus sign, and the digits among them
    number ten to fifteen. *)
Theorem is_phone_number_iff contact :
  _is_phone_number contact = true
  <-> Py.all_chars (fun c => phone_noise c || Py.isdigit_char c) contact = true
      /\ 10 <= Py.len (Py.re_sub_class phone_noise contact) <= 15.
Proof.
  rewrite phone_shape_cleaned. now rewrite all_chars_re_sub.
Qed.

Lemma len_String c s : Py.len (String c s) = S (Py.len s).
Proof. reflexivity. Qed.



(** X8. Whatever the string, the normalized number starts with a plus
    sign, and normalizing it once more changes nothing. *)
Theorem format_phone_normal_form x :
  Py.startswith "+" (format_phone x) = true
  /\ format_phone (format_phone x) = format_phone x.
Proof.
  split; [apply format_phone_plus|].
  apply format_phone_fixed, format_phone_plus.
Qed.

End ContactShapes.

(** ** What a send does and does not do *)

Section SendEffects.

Import MessageSender.

Lemma send_message_events w self lead message test_mode st :
  exists evs ok detail,
    send_message w self lead message test_mode st
    = (mkState (trace st ++ evs) (store st), Ok (ok, detail))
    /\ ((evs = [] /\ (test_mode = true \/ ok = false))
        \/ (test_mode = false
            /\ evs = [SmtpSend (gmail_user self) (Py.strip (contact lead))
                        ("Hello " +:+ name lead +:+ "!") message]
            /\ _is_email (Py.strip (contact lead)) = true)
        \/ (test_mode = false
            /\ evs = [TwilioCreate message (twilio_whatsapp_number self)
                        ("whatsapp:" +:+ format_phone (Py.strip (contact lead)))]
            /\ _is_email (Py.strip (contact lead)) = false
            /\ _is_phone_number (Py.strip (contact lead)) = true)).
Proof.
  unfold send_message. destruct test_mode.
  { exists [], true, test_mode_detail. rewrite app_nil_r.
    split; [now destruct st|]. left. auto. }
  destruct (_is_email _) eqn:He; [|destruct (_is_phone_number _) eqn:Hp].
  - unfold _send_email, log.
    destruct (smtp_error w _); do 3 eexists; (split; [reflexivity|]);
      right; left; auto.
  - unfold _send_whatsapp, log.
    destruct (twilio_create w _); do 3 eexists; (split; [reflexivity|]);
      right; right; auto.
  - exists [], false. eexists. rewrite app_nil_r.
    split; [now destruct st|]. left. auto.
Qed.

(** X9. A send never raises and never touches the spreadsheet; it makes
    at most one call, and that call is a delivery; in test mode it makes
    none; and off test mode it reports success only after a delivery
    call. *)
Theorem send_message_contained w self lead message test_mode st :
  exists evs ok detail,
    send_message w self lead message test_mode st
    = (mkState (trace st ++ evs) (store st), Ok (ok, detail))
    /\ length evs <= 1
    /\ Forall Spec.is_network_send evs
    /\ (test_mode = true -> evs = [])
    /\ (test_mode = false -> ok = true -> length evs = 1).
Proof.
  destruct (send_message_events w self lead message test_mode st)
    as (evs & ok & detail & Hrun & Hcases).
  exists evs, ok, detail. split; [exact Hrun|].
  destruct Hcases as [[-> Hno]|[(Hlive & -> & _)|(Hlive & -> & _)]].
  - repeat split; cbn; auto. intros -> ->. now destruct Hno.
  - repeat split; cbn; auto; try congruence. repeat constructor.
  - repeat split; cbn; auto; try congruence. repeat constructor.
Qed.

Lemma all_chars_app p s t :
  Py.all_chars p (s +:+ t) = Py.all_chars p s && Py.all_chars p t.
Proof.
  induction s as [|c s IH]; [reflexivity|].
  rewrite app_String. cbn [Py.all_chars]. rewrite IH. apply andb_assoc.
Qed.

Lemma all_chars_impl (p q : ascii -> bool) s :
  (forall c, p c = true -> q c = true) ->
  Py.all_chars p s = true -> Py.all_chars q s = true.
Proof.
  intros Hpq. induction s as [|c s IH]; [reflexivity|].
  cbn. intros H. apply andb_prop in H as [Hc Hs].
  now rewrite (Hpq c Hc), IH.
Qed.

Lemma Lang_Class p s : Re.Lang (Re.Class p) s -> Py.all_chars p s = true.
Proof. intros H. inversion H; subst. cbn. now rewrite andb_true_r. Qed.

Lemma Lang_Star_Class p s :
  Re.Lang (Re.Star (Re.Class p)) s -> Py.all_chars p s = true.
Proof.
  intros H. remember (Re.Star (Re.Class p)) as r eqn:Hr.
  induction H; try discriminate; [reflexivity|].
  injection Hr as ->. rewrite all_chars_app.
  rewrite (Lang_Class _ _ H), IHLang2; reflexivity.
Qed.

Lemma Lang_Plus_Class p s :
  Re.Lang (Re.Plus (Re.Class p)) s -> Py.all_chars p s = true.
Proof.
  intros H. apply Lang_Seq_inv in H as (s1 & s2 & -> & H1 & H2).
  rewrite all_chars_app, (Lang_Class _ _ H1), (Lang_Star_Class _ _ H2).
  reflexivity.
Qed.

Lemma Lang_AtLeast2_Class p s :
  Re.Lang (Re.AtLeast2 (Re.Class p)) s -> Py.all_chars p s = true.
Proof.
  intros H. apply Lang_Seq_inv in H as (s1 & s2 & -> & H1 & H2).
  rewrite all_chars_app, (Lang_Class _ _ H1), (Lang_Plus_Class _ _ H2).
  reflexivity.
Qed.

Lemma append_assoc (s t u : string) : (s +:+ t) +:+ u = s +:+ t +:+ u.
Proof.
  induction s as [|c s IH]; [reflexivity|].
  now rewrite !app_String, IH.
Qed.

Lemma email_chars_printable c :
  local_class c || domain_class c || alpha_class c
  || Ascii.eqb "@" c || Ascii.eqb "." c = true ->
  Spec.printable c = true.
Proof.
  destruct c as [[] [] [] [] [] [] [] []]; vm_compute; congruence.
Qed.

(** The part of an email-shaped string before the end anchor. *)
Lemma email_body contact :
  _is_email contact = true ->
  exists body tail,
    contact = body +:+ tail
    /\ Py.all_chars Spec.printable body = true
    /\ (tail = "" \/ tail = String "010" "").
Proof.
  intros H. apply fullmatch_sound in H. unfold email_pattern in H.
  apply Lang_Seq_inv in H as (a & r1 & -> & Ha & H).
  apply Lang_Seq_inv in H as (at_ & r2 & -> & Hat & H).
  apply Lang_Seq_inv in H as (b & r3 & -> & Hb & H).
  apply Lang_Seq_inv in H as (dot & r4 & -> & Hdot & H).
  apply Lang_Seq_inv in H as (t & d & -> & Ht & Hd).
  apply Lang_Plus_Class in Ha, Hb. apply Lang_AtLeast2_Class in Ht.
  apply Lang_Class in Hat, Hdot.
  exists (a +:+ at_ +:+ b +:+ dot +:+ t), d. split; [|split].
  - now rewrite !append_assoc.
  - assert (Hok : forall (p : ascii -> bool) s,
              (forall c, p c = true ->
                 local_class c || domain_class c || alpha_class c
                 || Ascii.eqb "@" c || Ascii.eqb "." c = true) ->
              Py.all_chars p s = true ->
              Py.all_chars Spec.printable s = true).
    { intros p s Hp. apply all_chars_impl. intros c Hc.
      apply email_chars_printable, Hp, Hc. }
    rewrite !all_chars_app.
    rewrite (Hok local_class a), (Hok (Ascii.eqb "@") at_),
      (Hok domain_class b), (Hok (Ascii.eqb ".") dot), (Hok alpha_class t);
      try assumption; try reflexivity;
      intros c ->; now rewrite ?orb_true_r.
  - unfold Re.Dollar in Hd. inversion Hd; subst.
    + left. match goal with H : Re.Lang Re.Eps _ |- _ => now inversion H end.
    + right. match goal with H : Re.Lang (Re.Chr _) _ |- _ =>
        now apply Lang_Chr in H end.
Qed.

Lemma rstrip_last x :
  forall y c, Py.rstrip x = y +:+ String c "" -> Py.isspace c = false.
Proof.
  induction x as [|a x IH]; intros y c; cbn [Py.rstrip].
  - destruct y; discriminate.
  - destruct (Py.rstrip x) as [|b r] eqn:E.
    + destruct (Py.isspace a) eqn:Ea; [destruct y; discriminate|].
      destruct y as [|a' [|? ?]]; intros [=]; subst; [exact Ea|..].
    + destruct y as [|a' y']; [intros [=]|].
      rewrite app_String. intros [= _ H]. exact (IH y' c H).
Qed.

(** X10. The address that the email path hands to SMTP contains no
    whitespace, hence no line break: an email-shaped contact may end in a
    newline for the pattern, but a stripped one does not. *)
Theorem email_recipient_no_whitespace w self lead message st :
  _is_email (Py.strip (contact lead)) = true ->
  exists to,
    trace (send_message w self lead message false st).1
    = trace st ++ [SmtpSend (gmail_user self) to
                     ("Hello " +:+ name lead +:+ "!") message]
    /\ Py.all_chars Spec.printable to = true.
Proof.
  intros He. exists (Py.strip (contact lead)). split.
  - unfold send_message. rewrite He. apply send_email_trace.
  - destruct (email_body _ He) as (body & tail & Heq & Hbody & [->| ->]).
    + rewrite Heq, all_chars_app, Hbody. reflexivity.
    + apply rstrip_last in Heq. discriminate.
Qed.

Lemma email_recipient_no_whitespace_witness :
  exists to,
    trace (send_message Sample.calm Sample.sender
             (mkLead 2 "Jane" " jane@example.com " "" "" "Pending") "hi"
             false (Sample.start ∅)).1
    = [SmtpSend "me@example.com" to "Hello Jane!" "hi"]
    /\ Py.all_chars Spec.printable to = true.
Proof.
  exact (email_recipient_no_whitespace Sample.calm Sample.sender
           (mkLead 2 "Jane" " jane@example.com " "" "" "Pending") "hi"
           (Sample.start ∅) eq_refl).
Defined.

End SendEffects.

(** ** Live campaign runs *)

Section LiveCampaign.

Import GoogleSheetsManager MessageGenerator MessageSender OutreachAssistant.

Ltac run_monad :=
  unfold mbind, M_bind, Fx.bind, mret, M_ret, Fx.ret in *.

Lemma state_eta (st : State) : mkState (trace st) (store st) = st.
Proof. now destruct st. Qed.

(** One turn of the live loop, in full: the generation call, at most one
    delivery call, then the status write, and the delay unless generation
    gave nothing. *)
Lemma process_lead_live w self lead s e st :
  exists evs status sleeps counts',
    length evs <= 1
    /\ Forall Spec.is_network_send evs
    /\ Forall Spec.has_body evs
    /\ (sleeps = [] \/ sleeps = [Sleep 1])
    /\ ((status = "Sent" /\ counts' = (s + 1, e) /\ length evs = 1)
        \/ (status = "Error" /\ counts' = (s, e + 1)))
    /\ process_lead w self false lead (s, e) st
       = match update_lead_status w (row_number lead) status
                 default_sheet_name
                 (mkState
                    (trace st ++ GenerateContent (_create_prompt lead) :: evs)
                    (store st)) with
         | (st3, Ok _) => (mkState (trace st3 ++ sleeps) (store st3), Ok counts')
         | (st3, Raise err) => (st3, Raise err)
         end.
Proof.
  unfold process_lead. run_monad.
  destruct (generate_message_run w lead st) as [message ->].
  destruct (absent message) eqn:Habs.
  - exists [], "Error", [], (s, e + 1).
    split_and!; [cbn; lia | constructor | constructor | auto | auto |].
    unfold mark, log. cbn [trace store].
    destruct (update_lead_status _ _ _ _ _) as [st3 [[]|err]]; [|reflexivity].
    now rewrite app_nil_r, state_eta.
  - destruct message as [text|]; [|discriminate]. cbn in Habs.
    apply negb_false_iff in Habs. cbn [default from_option id].
    destruct (send_message_events w self lead text false
                (log (GenerateContent (_create_prompt lead)) st))
      as (evs & ok & detail & -> & Hcases).
    assert (Hevs : length evs <= 1 /\ Forall Spec.is_network_send evs
                   /\ Forall Spec.has_body evs
                   /\ (ok = true -> length evs = 1)).
    { assert (text <> "") by (destruct text; [discriminate|congruence]).
      destruct Hcases as [[-> [?| ->]]|[(_ & -> & _)|(_ & -> & _)]];
        try discriminate; cbn; repeat split; auto; try lia;
        try discriminate; repeat constructor; assumption. }
    destruct Hevs as (Hlen & Hnet & Hbody & Hok).
    exists evs, (if ok then "Sent" else "Error"), [Sleep 1],
           (if ok then (s + 1, e) else (s, e + 1)).
    split_and!; [assumption.. | auto | destruct ok; auto |].
    unfold log. cbn [trace store fst snd]. rewrite <- app_assoc. cbn [app].
    unfold mark, sleep, log.
    destruct ok;
      destruct (update_lead_status _ _ _ _ _) as [st3 [[]|err]]; reflexivity.
Qed.

Lemma update_lead_status_trace w row_number status sheet_name st :
  trace (update_lead_status w row_number status sheet_name st).1
  = trace st ++ [SheetsUpdate sheet_name row_number status].
Proof.
  unfold update_lead_status, sheets_update. cbn.
  repeat case_match; reflexivity.
Qed.

Lemma status_writes_app tr1 tr2 :
  Spec.status_writes (tr1 ++ tr2)
  = Spec.status_writes tr1 ++ Spec.status_writes tr2.
Proof.
  induction tr1 as [|ev tr1 IH]; [reflexivity|].
  destruct ev; cbn; now rewrite IH.
Qed.

Lemma status_writes_sends evs :
  Forall Spec.is_network_send evs -> Spec.status_writes evs = [].
Proof.
  induction 1 as [|ev evs Hev _ IH]; [reflexivity|].
  destruct ev; cbn in *; tauto.
Qed.

Lemma has_body_sleeps sleeps :
  sleeps = [] \/ sleeps = [Sleep 1] ->
  Forall Spec.has_body sleeps /\ Spec.status_writes sleeps = [].
Proof. intros [->| ->]; split; repeat constructor. Qed.

(** What one turn of the live loop leaves in the trace. *)
Lemma process_lead_live_summary w self lead s e st :
  let res := process_lead w self false lead (s, e) st in
  exists turn status,
    trace res.1 = trace st ++ turn
    /\ Forall Spec.has_body turn
    /\ Spec.status_writes turn
       = [(default_sheet_name, row_number lead, status)]
    /\ match res.2 with
       | Ok counts' =>
           (status = "Sent" /\ counts' = (s + 1, e))
           \/ (status = "Error" /\ counts' = (s, e + 1))
       | Raise _ =>
           exists before,
             turn = before ++ [SheetsUpdate default_sheet_name
                                 (row_number lead) status]
       end.
Proof.
  intros res. subst res.
  destruct (process_lead_live w self lead s e st)
    as (evs & status & sleeps & counts' & _ & Hnet & Hbody & Hsl & Hst & ->).
  destruct (has_body_sleeps _ Hsl) as [Hslb Hslw].
  pose proof (update_lead_status_trace w (row_number lead) status
                default_sheet_name
                (mkState
                   (trace st ++ GenerateContent (_create_prompt lead) :: evs)
                   (store st))) as Htr.
  destruct (update_lead_status _ _ _ _ _) as [st3 [[]|err]];
    cbn [fst snd trace] in *; rewrite Htr.
  - exists (GenerateContent (_create_prompt lead) :: evs
            ++ SheetsUpdate default_sheet_name (row_number lead) status
               :: sleeps), status.
    split_and!.
    + now rewrite <- !app_assoc.
    + constructor; [exact I|]. apply Forall_app. split; [exact Hbody|].
      constructor; [exact I|exact Hslb].
    + cbn. rewrite status_writes_app, (status_writes_sends _ Hnet). cbn.
      now rewrite Hslw.
    + destruct Hst as [(-> & -> & _)|(-> & ->)]; auto.
  - exists (GenerateContent (_create_prompt lead) :: evs
            ++ [SheetsUpdate default_sheet_name (row_number lead) status]),
           status.
    split_and!.
    + now rewrite <- !app_assoc.
    + constructor; [exact I|]. apply Forall_app. split; [exact Hbody|].
      repeat constructor.
    + cbn. rewrite status_writes_app, (status_writes_sends _ Hnet).
      reflexivity.
    + exists (GenerateContent (_create_prompt lead) :: evs). reflexivity.
Qed.

(** What a live loop leaves in the trace. *)
Lemma campaign_loop_live_summary w self leads :
  forall s e st,
    let res := campaign_loop w self false leads (s, e) st in
    exists evs,
      trace res.1 = trace st ++ evs
      /\ Forall Spec.has_body evs
      /\ match res.2 with
         | Ok (s', e') =>
             exists statuses,
               length statuses = length leads
               /\ Forall (fun x => x = "Sent" \/ x = "Error") statuses
               /\ Spec.status_writes evs
                  = zip_with (fun l x => (default_sheet_name, row_number l, x))
                      leads statuses
               /\ s' = s + length (filter (fun x => x = "Sent") statuses)
               /\ e' = e + length (filter (fun x => x = "Error") statuses)
         | Raise _ =>
             exists before r status,
               evs = before ++ [SheetsUpdate default_sheet_name r status]
         end.
Proof.
  induction leads as [|lead rest IH]; intros s e st res; subst res.
  - rewrite campaign_loop_nil. exists []. cbn. rewrite app_nil_r.
    split_and!; [reflexivity|constructor|]. exists []. cbn.
    split_and!; auto.
  - rewrite campaign_loop_cons.
    destruct (process_lead_live_summary w self lead s e st)
      as (turn & status & Htr & Hbody & Hw & Hres).
    destruct (process_lead w self false lead (s, e) st)
      as [st1 [[s1 e1]|err]]; cbn [fst snd] in *.
    + destruct (IH s1 e1 st1) as (evs & Htr' & Hbody' & Hres').
      exists (turn ++ evs). split_and!.
      * now rewrite Htr', Htr, <- app_assoc.
      * now apply Forall_app.
      * destruct (campaign_loop w self false rest (s1, e1) st1)
          as [st2 [[s2 e2]|err]]; cbn [fst snd] in *.
        -- destruct Hres' as (statuses & Hlen & Hall & Hws & -> & ->).
           exists (status :: statuses). split_and!.
           ++ cbn. now rewrite Hlen.
           ++ constructor; [|exact Hall].
              destruct Hres as [[-> _]|[-> _]]; auto.
           ++ now rewrite status_writes_app, Hw, Hws.
           ++ destruct Hres as [[-> ?]|[-> ?]]; simplify_eq;
                rewrite filter_cons; case_decide; try congruence;
                cbn; lia.
           ++ destruct Hres as [[-> ?]|[-> ?]]; simplify_eq;
                rewrite filter_cons; case_decide; try congruence;
                cbn; lia.
        -- destruct Hres' as (before & r & status' & ->).
           exists (turn ++ before), r, status'. now rewrite app_assoc.
    + exists turn. split_and!; auto.
      destruct Hres as [before ->]. eauto.
Qed.

Lemma quiet_has_body evs :
  Forall (fun ev => ~ Spec.is_status_write ev /\ ~ Spec.is_network_send ev) evs ->
  Forall Spec.has_body evs.
Proof.
  intros H. eapply Forall_impl; [exact H|].
  intros ev [_ Hn]. destruct ev; cbn in *; tauto.
Qed.

Lemma campaign_loop_bodies w self test_mode leads counts st :
  exists evs,
    trace (campaign_loop w self test_mode leads counts st).1 = trace st ++ evs
    /\ Forall Spec.has_body evs.
Proof.
  destruct test_mode.
  - destruct (campaign_loop_test_mode w self leads counts st)
      as (c & evs & -> & H). exists evs. split; [reflexivity|].
    now apply quiet_has_body.
  - destruct counts as [s e].
    destruct (campaign_loop_live_summary w self leads s e st)
      as (evs & Htr & Hb & _). eauto.
Qed.

(** X11. A campaign run never delivers an empty message: every email and
    every WhatsApp message it sends, in whatever mode and however the run
    ends, has a body that is not the empty string. *)
Theorem campaign_never_sends_empty w self test_mode sheet_name st :
  exists evs,
    trace (run_outreach_campaign w self test_mode sheet_name st).1
    = trace st ++ evs
    /\ Forall Spec.has_body evs.
Proof.
  rewrite run_outreach_campaign_run. cbn zeta.
  assert (Hstop : forall r : outcome (option (nat * nat)),
            exists evs,
              trace (log (SheetsGet sheet_name default_range_name) st, r).1
              = trace st ++ evs /\ Forall Spec.has_body evs).
  { intros r. eexists. split; [reflexivity|]. repeat constructor. }
  destruct (sheets_get_error w _); [apply Hstop|].
  destruct (store st !! sheet_name) as [values|]; [|apply Hstop].
  destruct (filter is_pending (leads_of_values values)) as [|l ls];
    [apply Hstop|].
  destruct (campaign_loop_bodies w self test_mode (l :: ls) (0, 0)
              (log (SheetsGet sheet_name default_range_name) st))
    as (evs & Htr & Hb).
  exists (SheetsGet sheet_name default_range_name :: evs).
  split; [|constructor; [exact I|exact Hb]].
  destruct (campaign_loop _ _ _ _ _ _) as [st2 [c|err]];
    cbn [fst snd] in *; rewrite Htr; cbn; now rewrite <- app_assoc.
Qed.

(** X12. A live run that comes to its end has written one status per
    pending lead, in the order of the rows and under the row number of the
    lead, each "Sent" or "Error" and each addressed to the tab
    "outreach_leads"; it has written no other status, and its tally counts
    the "Sent" and the "Error" among them. *)
Theorem campaign_status_writes w self sheet_name st st' r :
  run_outreach_campaign w self false sheet_name st = (st', Ok r) ->
  exists values statuses,
    store st !! sheet_name = Some values
    /\ length statuses = length (filter is_pending (leads_of_values values))
    /\ Forall (fun x => x = "Sent" \/ x = "Error") statuses
    /\ Spec.status_writes (trace st')
       = Spec.status_writes (trace st)
         ++ zip_with (fun l x => (default_sheet_name, row_number l, x))
              (filter is_pending (leads_of_values values)) statuses
    /\ (statuses <> [] ->
        r = Some (length (filter (fun x => x = "Sent") statuses),
                  length (filter (fun x => x = "Error") statuses))).
Proof.
  rewrite run_outreach_campaign_run. cbn zeta.
  destruct (sheets_get_error w _); [discriminate|].
  destruct (store st !! sheet_name) as [values|]; [|discriminate].
  intros Hrun. exists values.
  destruct (filter is_pending (leads_of_values values)) as [|l ls].
  - simplify_eq. exists []. cbn. split_and!; auto; [|congruence].
    now rewrite status_writes_app.
  - destruct (campaign_loop_live_summary w self (l :: ls) 0 0
                (log (SheetsGet sheet_name default_range_name) st))
      as (evs & Htr & _ & Hres).
    destruct (campaign_loop _ _ _ _ _ _) as [st2 [[s e]|err]];
      [|discriminate].
    simplify_eq. cbn [fst snd] in *.
    destruct Hres as (statuses & Hlen & Hall & Hws & -> & ->).
    exists statuses. split_and!; auto.
    rewrite Htr, status_writes_app, Hws. cbn.
    now rewrite status_writes_app, app_nil_r.
Qed.

Lemma campaign_status_writes_witness :
  exists values statuses,
    store (Sample.start {[default_sheet_name :=
             [Sample.headers;
              ["Ann"; "ann@example.com"; "AI"; "US"; "Pending"];
              ["Bob"; "abc"; "AI"; "US"; "pending"]]]})
      !! default_sheet_name = Some values
    /\ length statuses = length (filter is_pending (leads_of_values values))
    /\ Forall (fun x => x = "Sent" \/ x = "Error") statuses
    /\ Spec.status_writes
         (trace (run_outreach_campaign Sample.calm Sample.sender false
                   default_sheet_name
                   (Sample.start {[default_sheet_name :=
                      [Sample.headers;
                       ["Ann"; "ann@example.com"; "AI"; "US"; "Pending"];
                       ["Bob"; "abc"; "AI"; "US"; "pending"]]]})).1)
       = Spec.status_writes []
         ++ zip_with (fun l x => (default_sheet_name, row_number l, x))
              (filter is_pending (leads_of_values values)) statuses
    /\ (statuses <> [] ->
        Some (1, 1)
        = Some (length (filter (fun x => x = "Sent") statuses),
                length (filter (fun x => x = "Error") statuses))).
Proof.
  exact (campaign_status_writes Sample.calm Sample.sender
           default_sheet_name
           (Sample.start {[default_sheet_name :=
              [Sample.headers;
               ["Ann"; "ann@example.com"; "AI"; "US"; "Pending"];
               ["Bob"; "abc"; "AI"; "US"; "pending"]]]})
           _ (Some (1, 1)) eq_refl).
Defined.

(** X13. A campaign run raises only because a spreadsheet call raised:
    either the read of the leads, with nothing else done, or, off test
    mode, a status write, which is then the last call of the run.
    Generation and delivery never end a run. *)
Theorem campaign_raises_only_from_store w self test_mode sheet_name st st' err :
  run_outreach_campaign w self test_mode sheet_name st = (st', Raise err) ->
  trace st' = trace st ++ [SheetsGet sheet_name default_range_name]
  \/ (test_mode = false
      /\ exists before r status,
           trace st'
           = trace st ++ before
             ++ [SheetsUpdate default_sheet_name r status]).
Proof.
  rewrite run_outreach_campaign_run. cbn zeta.
  destruct (sheets_get_error w _);
    [intros ?; simplify_eq; left; reflexivity|].
  destruct (store st !! sheet_name) as [values|];
    [|intros ?; simplify_eq; left; reflexivity].
  destruct (filter is_pending (leads_of_values values)) as [|l ls];
    [discriminate|].
  destruct test_mode.
  - destruct (campaign_loop_test_mode w self (l :: ls) (0, 0)
                (log (SheetsGet sheet_name default_range_name) st))
      as (c & evs & -> & _). discriminate.
  - destruct (campaign_loop_live_summary w self (l :: ls) 0 0
                (log (SheetsGet sheet_name default_range_name) st))
      as (evs & Htr & _ & Hres).
    destruct (campaign_loop _ _ _ _ _ _) as [st2 [c|err']];
      [discriminate|].
    intros ?. simplify_eq. cbn [fst snd] in *.
    destruct Hres as (before & r & status & ->).
    right. split; [reflexivity|].
    exists (SheetsGet sheet_name default_range_name :: before), r, status.
    rewrite Htr. cbn. now rewrite <- !app_assoc.
Qed.

Lemma campaign_raises_only_from_store_witness :
  trace (run_outreach_campaign Sample.calm Sample.sender false "missing"
           (Sample.start ∅)).1
  = [] ++ [SheetsGet "missing" default_range_name]
  \/ (false = false
      /\ exists before r status,
           trace (run_outreach_campaign Sample.calm Sample.sender false
                    "missing" (Sample.start ∅)).1
           = [] ++ before ++ [SheetsUpdate default_sheet_name r status]).
Proof.
  exact (campaign_raises_only_from_store Sample.calm Sample.sender false
           "missing" (Sample.start ∅) _ _ eq_refl).
Defined.

(** The spreadsheet after a turn of the live loop that returns. *)
Lemma process_lead_live_store w self lead s e st st' counts' :
  process_lead w self false lead (s, e) st = (st', Ok counts') ->
  exists status values index,
    (status = "Sent" \/ status = "Error")
    /\ row_number lead = S index
    /\ store st !! default_sheet_name = Some values
    /\ store st'
       = <[default_sheet_name := write_row_E index status values]> (store st).
Proof.
  destruct (process_lead_live w self lead s e st)
    as (evs & status & sleeps & c & _ & _ & _ & _ & Hst & ->).
  destruct (update_lead_status _ _ _ _ _) as [st3 [[]|err]] eqn:Hup;
    [|discriminate].
  intros ?. simplify_eq.
  apply update_lead_status_ok in Hup as (values & index & Hi & Hv & Hs & _).
  exists status, values, index. cbn [store] in *. split_and!; auto.
  destruct Hst as [(-> & _)|(-> & _)]; auto.
Qed.

Lemma campaign_loop_rows w self headers rows :
  forall pre counts st st' counts',
    store st !! default_sheet_name = Some (headers :: pre ++ rows) ->
    campaign_loop w self false
      (filter is_pending (leads_from headers (2 + length pre) rows))
      counts st = (st', Ok counts') ->
    exists rows',
      store st' = <[default_sheet_name := headers :: pre ++ rows']> (store st)
      /\ Forall2
           (fun row row' =>
              if decide (is_pending (make_lead headers 0 row))
              then row' = write_E "Sent" row \/ row' = write_E "Error" row
              else row' = row) rows rows'.
Proof.
  induction rows as [|row rest IH]; intros pre counts st st' counts' Htab Hrun.
  - cbn in Hrun. unfold mret, M_ret, Fx.ret in Hrun. simplify_eq.
    exists []. split; [|constructor].
    symmetry. now apply insert_id.
  - cbn [leads_from] in Hrun.
    assert (Hnext : S (2 + length pre) = 2 + length (pre ++ [row]))
      by (rewrite length_app; cbn; lia).
    rewrite filter_cons in Hrun.
    destruct (decide (is_pending (make_lead headers (2 + length pre) row)))
      as [Hp|Hp].
    + rewrite campaign_loop_cons in Hrun. destruct counts as [s e].
      destruct (process_lead _ _ _ _ _ _) as [st1 [c1|err]] eqn:Hstep;
        [|discriminate].
      apply process_lead_live_store in Hstep
        as (status & values & index & Hst & Hi & Hv & Hstore).
      cbn in Hi. simplify_eq. rewrite write_row_E_middle in Hstore.
      rewrite Hnext in Hrun.
      destruct (IH (pre ++ [write_E status row]) c1 st1 st' counts')
        as (rows' & IHs & IHf).
      * rewrite Hstore, lookup_insert_eq. now rewrite <- app_assoc.
      * rewrite length_app in *. exact Hrun.
      * exists (write_E status row :: rows'). split.
        -- rewrite IHs, Hstore, insert_insert_eq. now rewrite <- app_assoc.
        -- constructor; [|exact IHf].
           rewrite decide_True by exact Hp.
           destruct Hst as [->| ->]; auto.
    + rewrite Hnext in Hrun.
      destruct (IH (pre ++ [row]) counts st st' counts') as (rows' & IHs & IHf).
      * now rewrite <- app_assoc.
      * exact Hrun.
      * exists (row :: rows'). split.
        -- rewrite IHs. now rewrite <- app_assoc.
        -- constructor; [|exact IHf]. now rewrite decide_False by exact Hp.
Qed.

Lemma leads_from_processed headers rows rows' :
  Forall2
    (fun row row' =>
       if decide (is_pending (make_lead headers 0 row))
       then row' = write_E "Sent" row \/ row' = write_E "Error" row
       else row' = row) rows rows' ->
  forall i,
    Forall2
      (fun l l' =>
         if decide (is_pending l)
         then l' = Spec.set_status "Sent" l \/ l' = Spec.set_status "Error" l
         else l' = l)
      (leads_from headers i rows) (leads_from headers i rows').
Proof.
  induction 1 as [|row row' rows rows' Hrow _ IH]; intros i; cbn [leads_from];
    constructor; [|apply IH].
  destruct (decide (is_pending (make_lead headers 0 row))) as [Hp|Hp].
  - rewrite decide_True by exact Hp.
    destruct Hrow as [->| ->]; rewrite make_lead_write_E; auto.
  - rewrite decide_False by exact Hp. now subst.
Qed.

Lemma processed_not_pending leads leads' :
  Forall2
    (fun l l' =>
       if decide (is_pending l)
       then l' = Spec.set_status "Sent" l \/ l' = Spec.set_status "Error" l
       else l' = l) leads leads' ->
  filter is_pending leads' = [].
Proof.
  induction 1 as [|l l' leads leads' Hl _ IH]; [reflexivity|].
  rewrite filter_cons, IH. rewrite decide_False; [reflexivity|].
  destruct (decide (is_pending l)) as [Hp|Hp].
  - destruct Hl as [->| ->]; unfold is_pending; cbn; discriminate.
  - now subst.
Qed.

(** X14. After a live run on the tab "outreach_leads" that comes to its
    end, every lead that was pending reads "Sent" or "Error" with its
    other fields as before, every other lead is as it was, and no lead of
    the tab is pending any more. *)
Theorem campaign_leaves_no_pending w self st st' r :
  run_outreach_campaign w self false default_sheet_name st = (st', Ok r) ->
  exists values values',
    store st !! default_sheet_name = Some values
    /\ store st' = <[default_sheet_name := values']> (store st)
    /\ Forall2
         (fun l l' =>
            if decide (is_pending l)
            then l' = Spec.set_status "Sent" l
                 \/ l' = Spec.set_status "Error" l
            else l' = l)
         (leads_of_values values) (leads_of_values values')
    /\ filter is_pending (leads_of_values values') = [].
Proof.
  rewrite run_outreach_campaign_run. cbn zeta.
  destruct (sheets_get_error w _); [discriminate|].
  destruct (store st !! default_sheet_name) as [values|] eqn:Htab;
    [|discriminate].
  set (st1 := log (SheetsGet default_sheet_name default_range_name) st).
  intros Hrun.
  assert (Hloop : exists counts',
            campaign_loop w self false
              (filter is_pending (leads_of_values values)) (0, 0) st1
            = (st', Ok counts')).
  { destruct (filter is_pending (leads_of_values values)) as [|l ls].
    - simplify_eq. now exists (0, 0).
    - destruct (campaign_loop _ _ _ _ _ _) as [st2 [c|err]];
        [|discriminate].
      simplify_eq. eauto. }
  clear Hrun. destruct Hloop as [counts' Hloop].
  destruct values as [|headers rows].
  - cbn in Hloop. unfold mret, M_ret, Fx.ret in Hloop. simplify_eq.
    exists [], []. split_and!; [reflexivity| |constructor|reflexivity].
    symmetry. now apply insert_id.
  - apply (campaign_loop_rows w self headers rows []) in Hloop
      as (rows' & Hs & Hf); [|exact Htab].
    apply leads_from_processed with (i := 2) in Hf.
    exists (headers :: rows), (headers :: rows').
    split_and!; [reflexivity|exact Hs|exact Hf|].
    exact (processed_not_pending _ _ Hf).
Qed.

Lemma campaign_leaves_no_pending_witness :
  exists values values',
    store (Sample.start {[default_sheet_name :=
             [Sample.headers;
              ["Ann"; "ann@example.com"; "AI"; "US"; "Pending"];
              ["Bob"; "abc"; "AI"; "US"; "pending"]]]})
      !! default_sheet_name = Some values
    /\ store (run_outreach_campaign Sample.calm Sample.sender false
                default_sheet_name
                (Sample.start {[default_sheet_name :=
                   [Sample.headers;
                    ["Ann"; "ann@example.com"; "AI"; "US"; "Pending"];
                    ["Bob"; "abc"; "AI"; "US"; "pending"]]]})).1
       = <[default_sheet_name := values']>
           (store (Sample.start {[default_sheet_name :=
              [Sample.headers;
               ["Ann"; "ann@example.com"; "AI"; "US"; "Pending"];
               ["Bob"; "abc"; "AI"; "US"; "pending"]]]}))
    /\ Forall2
         (fun l l' =>
            if decide (is_pending l)
            then l' = Spec.set_status "Sent" l
                 \/ l' = Spec.set_status "Error" l
            else l' = l)
         (leads_of_values values) (leads_of_values values')
    /\ filter is_pending (leads_of_values values') = [].
Proof.
  exact (campaign_leaves_no_pending Sample.calm Sample.sender
           (Sample.start {[default_sheet_name :=
              [Sample.headers;
               ["Ann"; "ann@example.com"; "AI"; "US"; "Pending"];
               ["Bob"; "abc"; "AI"; "US"; "pending"]]]})
           _ (Some (1, 1)) eq_refl).
Defined.

End LiveCampaign.

(** ** Bulk reset, self-test and command line *)

Section Tools.

Import GoogleSheetsManager MessageGenerator MessageSender OutreachAssistant.

Lemma reset_not_failed leads :
  filter is_failed (map Spec.reset leads) = [].
Proof.
  induction leads as [|l leads IH]; [reflexivity|].
  cbn [map]. rewrite filter_cons, IH. rewrite decide_False; [reflexivity|].
  unfold Spec.reset.
  destruct (decide (Spec.same_ignoring_case (status l) "Error")) as [Hf|Hf].
  - unfold is_failed. cbn. discriminate.
  - exact Hf.
Qed.

(** X15. The bulk reset is idempotent on the tab "outreach_leads": run
    once more after a run that returned, it finds no failed lead, reports
    none and makes no status write. *)
Theorem retry_failed_leads_twice w w' st st1 st2 n m :
  retry_failed_leads w default_sheet_name st = (st1, Ok n) ->
  retry_failed_leads w' default_sheet_name st1 = (st2, Ok m) ->
  m = 0
  /\ st2 = log (SheetsGet default_sheet_name default_range_name) st1.
Proof.
  intros H1 H2.
  apply retry_failed_leads_default_tab in H1
    as (values & values' & _ & _ & _ & Hs & Hl).
  rewrite retry_failed_leads_run in H2. cbn zeta in H2.
  destruct (sheets_get_error w' _); [discriminate|].
  rewrite Hs, lookup_insert_eq, Hl, reset_not_failed in H2.
  now simplify_eq.
Qed.

Lemma retry_failed_leads_twice_witness :
  0 = 0
  /\ (retry_failed_leads Sample.calm default_sheet_name
        (retry_failed_leads Sample.calm default_sheet_name
           (Sample.start {[default_sheet_name :=
              [Sample.headers;
               ["Ann"; "ann@example.com"; "AI"; "US"; "Error"];
               ["Bob"; "abc"; "AI"; "US"; "Sent"]]]})).1).1
     = log (SheetsGet default_sheet_name default_range_name)
         (retry_failed_leads Sample.calm default_sheet_name
            (Sample.start {[default_sheet_name :=
               [Sample.headers;
                ["Ann"; "ann@example.com"; "AI"; "US"; "Error"];
                ["Bob"; "abc"; "AI"; "US"; "Sent"]]]})).1.
Proof.
  exact (retry_failed_leads_twice Sample.calm Sample.calm
           (Sample.start {[default_sheet_name :=
              [Sample.headers;
               ["Ann"; "ann@example.com"; "AI"; "US"; "Error"];
               ["Bob"; "abc"; "AI"; "US"; "Sent"]]]})
           _ _ 1 0 eq_refl eq_refl).
Defined.

Lemma test_generation_run w lead st :
  exists text,
    test_generation w lead st
    = (log (GenerateContent (_create_prompt lead)) st, Ok text)
    /\ Py.truthy text = true.
Proof.
  unfold test_generation, mbind, M_bind, Fx.bind.
  destruct (generate_message_run w lead st) as [message ->].
  destruct message as [text|]; [|now exists test_failed].
  destruct (Py.truthy text) eqn:E; [now exists text|now exists test_failed].
Qed.

Lemma test_connections_run w p st :
  exists report,
    test_connections w p st
    = (mkState
         (trace st ++ [SheetsGet default_sheet_name default_range_name;
                       GenerateContent (_create_prompt sample_lead)])
         (store st), Ok report)
    /\ gemini_ok report = true
    /\ (sheets_leads report = None
        <-> forall values,
              (read_leads w default_sheet_name default_range_name st).2
              <> Ok values).
Proof.
  unfold test_connections, mbind, M_bind, Fx.bind, attempt.
  destruct (read_leads w default_sheet_name default_range_name st)
    as [st1 r] eqn:Hread.
  assert (Hst1 : st1 = log (SheetsGet default_sheet_name default_range_name) st).
  { rewrite read_leads_run in Hread. cbn zeta in Hread.
    repeat case_match; now simplify_eq. }
  subst st1.
  destruct (test_generation_run w sample_lead
              (log (SheetsGet default_sheet_name default_range_name) st))
    as (text & -> & Htext).
  unfold test_connection, mret, M_ret, Fx.ret, log. cbn [trace store fst snd].
  eexists. split; [now rewrite <- app_assoc|]. cbn.
  split; [exact Htext|].
  destruct r as [leads|err]; split.
  - discriminate.
  - intros H. now destruct (H leads).
  - intros _ values. discriminate.
  - reflexivity.
Qed.

(** X16. The self-test cannot see a failure of the generation API:
    [test_generation] answers with a string that is never empty, the fixed
    failure text when nothing was generated, so [test_connections] reports
    the generation API as connected whatever the API did. *)
Theorem test_connections_gemini_always_ok w p st :
  (exists text,
     (test_generation w sample_lead st).2 = Ok text /\ Py.truthy text = true)
  /\ exists report st',
       test_connections w p st = (st', Ok report)
       /\ gemini_ok report = true.
Proof.
  split.
  - destruct (test_generation_run w sample_lead st) as (text & -> & H).
    eauto.
  - destruct (test_connections_run w p st) as (report & -> & H & _). eauto.
Qed.

(** X17. The self-test is harmless and does not fail: it returns even
    when the spreadsheet read raises (which it reports as such), it leaves
    the spreadsheet as it was, and besides its two handshakes it calls
    nothing but one read of the tab "outreach_leads" and one generation
    call for the sample lead: no status write, no delivery. *)
Theorem test_connections_contained w p st :
  exists report,
    test_connections w p st
    = (mkState
         (trace st ++ [SheetsGet default_sheet_name default_range_name;
                       GenerateContent (_create_prompt sample_lead)])
         (store st), Ok report)
    /\ (sheets_leads report = None
        <-> forall values,
              (read_leads w default_sheet_name default_range_name st).2
              <> Ok values).
Proof.
  destruct (test_connections_run w p st) as (report & -> & _ & H). eauto.
Qed.

Lemma run_outreach_campaign_test_mode w self sheet_name st :
  exists evs r,
    run_outreach_campaign w self true sheet_name st
    = (mkState (trace st ++ evs) (store st), r)
    /\ Forall (fun ev => ~ Spec.is_status_write ev
                         /\ ~ Spec.is_network_send ev) evs.
Proof.
  rewrite run_outreach_campaign_run. cbn zeta.
  assert (Hstop : forall r : outcome (option (nat * nat)),
            exists evs r',
              (log (SheetsGet sheet_name default_range_name) st, r)
              = (mkState (trace st ++ evs) (store st), r')
              /\ Forall (fun ev => ~ Spec.is_status_write ev
                                   /\ ~ Spec.is_network_send ev) evs).
  { intros r. do 2 eexists. split; [reflexivity|].
    repeat constructor; cbn; tauto. }
  destruct (sheets_get_error w _); [apply Hstop|].
  destruct (store st !! sheet_name) as [values|]; [|apply Hstop].
  destruct (filter is_pending (leads_of_values values)) as [|l ls];
    [apply Hstop|].
  destruct (campaign_loop_test_mode w self (l :: ls) (0, 0)
              (log (SheetsGet sheet_name default_range_name) st))
    as (c & evs & -> & Hevs).
  exists (SheetsGet sheet_name default_range_name :: evs). eexists.
  cbn. rewrite <- app_assoc. split; [reflexivity|].
  constructor; [cbn; tauto|exact Hevs].
Qed.

Lemma missing_vars_elem env var :
  var ∈ required_vars -> absent (env !! var) = true -> missing_vars env <> [].
Proof.
  intros Hin Habs Hnil.
  assert (H : var ∈ missing_vars env)
    by (apply list_elem_of_filter; auto).
  rewrite Hnil in H. now apply elem_of_nil in H.
Qed.

(** X18. The program stops with exit code 1 before making any call when
    one of the eight required variables is unset or set to the empty
    string, whatever the flags. *)
Theorem main_missing_variable w p env args st var :
  var ∈ required_vars ->
  absent (env !! var) = true ->
  main w p env args st = (st, 1).
Proof.
  intros Hin Habs. unfold main, _load_environment.
  pose proof (missing_vars_elem env var Hin Habs).
  now destruct (missing_vars env).
Qed.

Lemma main_missing_variable_witness :
  main Sample.calm Sample.open_doors (<["GEMINI_API_KEY" := ""]> Sample.env)
    (Args.mk false false false "outreach_leads") (Sample.start ∅)
  = (Sample.start ∅, 1).
Proof.
  refine (main_missing_variable Sample.calm Sample.open_doors
            (<["GEMINI_API_KEY" := ""]> Sample.env)
            (Args.mk false false false "outreach_leads") (Sample.start ∅)
            "GEMINI_API_KEY" _ eq_refl).
  vm_compute. repeat constructor.
Defined.

Lemma main_started w p env args st :
  missing_vars env = [] ->
  sheets_auth_error p = None ->
  other_init_error p = None ->
  exists self,
    main w p env args st
    = let action : M unit :=
        if Args.test_connections args then
          _ ← test_connections w p; mret tt
        else if Args.retry_failed args then
          _ ← retry_failed_leads w (Args.sheet_name args); mret tt
        else
          _ ← run_outreach_campaign w self (Args.test args)
                (Args.sheet_name args);
          mret tt in
      match action st with
      | (st', Ok _) => (st', 0)
      | (st', Raise _) => (st', 1)
      end.
Proof.
  intros Henv Hauth Hinit. unfold main, _load_environment, _initialize_components.
  rewrite Henv, Hauth, Hinit. eauto.
Qed.

(** X19. The flag --test does not make the bulk reset a dry run: started
    with --test and --retry-failed, the program resets the failed leads of
    the tab "outreach_leads" as it does without --test, one status write
    of "Pending" per failed lead. *)
Theorem main_retry_writes_despite_test w p env st st' :
  missing_vars env = [] ->
  sheets_auth_error p = None ->
  other_init_error p = None ->
  main w p env (Args.mk true false true default_sheet_name) st = (st', 0) ->
  exists values values',
    store st !! default_sheet_name = Some values
    /\ store st' = <[default_sheet_name := values']> (store st)
    /\ leads_of_values values' = map Spec.reset (leads_of_values values)
    /\ Spec.status_writes (trace st')
       = Spec.status_writes (trace st)
         ++ map (fun l => (default_sheet_name, row_number l, "Pending"))
              (filter is_failed (leads_of_values values)).
Proof.
  intros Henv Hauth Hinit Hmain.
  destruct (main_started w p env (Args.mk true false true default_sheet_name)
              st Henv Hauth Hinit) as [self Heq].
  rewrite Heq in Hmain. cbn in Hmain.
  unfold mbind, M_bind, Fx.bind, mret, M_ret, Fx.ret in Hmain.
  destruct (retry_failed_leads w default_sheet_name st) as [st1 [n|err]] eqn:Hr;
    [|discriminate].
  simplify_eq.
  apply retry_failed_leads_default_tab in Hr
    as (values & values' & Hv & _ & Htr & Hs & Hl).
  exists values, values'. split_and!; auto.
  rewrite Htr, status_writes_app. f_equal. cbn [Spec.status_writes].
  generalize (filter is_failed (leads_of_values values)).
  intros ls. induction ls as [|l ls IH]; [reflexivity|].
  cbn [map Spec.status_writes]. now rewrite IH.
Qed.

Lemma main_retry_writes_despite_test_witness :
  exists values values',
    store (Sample.start {[default_sheet_name :=
             [Sample.headers;
              ["Ann"; "ann@example.com"; "AI"; "US"; "Error"]]]})
      !! default_sheet_name = Some values
    /\ store (main Sample.calm Sample.open_doors Sample.env
                (Args.mk true false true default_sheet_name)
                (Sample.start {[default_sheet_name :=
                   [Sample.headers;
                    ["Ann"; "ann@example.com"; "AI"; "US"; "Error"]]]})).1
       = <[default_sheet_name := values']>
           (store (Sample.start {[default_sheet_name :=
              [Sample.headers;
               ["Ann"; "ann@example.com"; "AI"; "US"; "Error"]]]}))
    /\ leads_of_values values' = map Spec.reset (leads_of_values values)
    /\ Spec.status_writes
         (trace (main Sample.calm Sample.open_doors Sample.env
                   (Args.mk true false true default_sheet_name)
                   (Sample.start {[default_sheet_name :=
                      [Sample.headers;
                       ["Ann"; "ann@example.com"; "AI"; "US"; "Error"]]]})).1)
       = Spec.status_writes []
         ++ map (fun l => (default_sheet_name, row_number l, "Pending"))
              (filter is_failed (leads_of_values values)).
Proof.
  exact (main_retry_writes_despite_test Sample.calm Sample.open_doors
           Sample.env
           (Sample.start {[default_sheet_name :=
              [Sample.headers;
               ["Ann"; "ann@example.com"; "AI"; "US"; "Error"]]]})
           _ eq_refl eq_refl eq_refl eq_refl).
Defined.

(** X20. Started with --test-connections, or with --test and neither
    --test-connections nor --retry-failed, the program leaves the
    spreadsheet as it was: none of its calls writes a status, and none
    delivers a message. *)
Theorem main_dry_modes_harmless w p env args st :
  Args.test_connections args = true
  \/ (Args.retry_failed args = false /\ Args.test args = true) ->
  exists evs code,
    main w p env args st = (mkState (trace st ++ evs) (store st), code)
    /\ Forall (fun ev => ~ Spec.is_status_write ev
                         /\ ~ Spec.is_network_send ev) evs.
Proof.
  intros Hmode.
  assert (Hnone : forall n : nat, exists evs code,
            (st, n) = (mkState (trace st ++ evs) (store st), code)
            /\ Forall (fun ev => ~ Spec.is_status_write ev
                                 /\ ~ Spec.is_network_send ev) evs).
  { intros n. exists [], n. rewrite app_nil_r.
    split; [now destruct st|constructor]. }
  unfold main.
  destruct (_load_environment env); [apply Hnone|].
  destruct (_initialize_components p env) as [code|self]; [apply Hnone|].
  unfold mbind, M_bind, Fx.bind, mret, M_ret, Fx.ret.
  destruct (Args.test_connections args) eqn:Htc.
  - destruct (test_connections_run w p st) as (report & -> & _).
    do 2 eexists. split; [reflexivity|]. repeat constructor; cbn; tauto.
  - destruct Hmode as [?|[-> ->]]; [discriminate|].
    destruct (run_outreach_campaign_test_mode w self (Args.sheet_name args) st)
      as (evs & r & -> & Hevs).
    exists evs. destruct r; eexists; split; try reflexivity; exact Hevs.
Qed.

Lemma main_dry_modes_harmless_witness :
  exists evs code,
    main Sample.calm Sample.open_doors Sample.env
      (Args.mk true false false default_sheet_name)
      (Sample.start {[default_sheet_name :=
         [Sample.headers;
          ["Ann"; "ann@example.com"; "AI"; "US"; "Pending"]]]})
    = (mkState ([] ++ evs)
         {[default_sheet_name :=
            [Sample.headers;
             ["Ann"; "ann@example.com"; "AI"; "US"; "Pending"]]]}, code)
    /\ Forall (fun ev => ~ Spec.is_status_write ev
                         /\ ~ Spec.is_network_send ev) evs.
Proof.
  exact (main_dry_modes_harmless Sample.calm Sample.open_doors Sample.env
           (Args.mk true false false default_sheet_name)
           (Sample.start {[default_sheet_name :=
              [Sample.headers;
               ["Ann"; "ann@example.com"; "AI"; "US"; "Pending"]]]})
           (or_intror (conj eq_refl eq_refl))).
Defined.

End Tools.

(** ** Generation calls and the reset script *)

Section GenerationAndReset.

Import GoogleSheetsManager MessageGenerator MessageSender OutreachAssistant.

Lemma lstrip_first s c t :
  Py.lstrip s = String c t -> Py.isspace c = false.
Proof.
  induction s as [|a s IH]; cbn; [discriminate|].
  destruct (Py.isspace a) eqn:Ea; [exact IH|].
  intros [= <- _]. exact Ea.
Qed.

Lemma rstrip_first s c t :
  (forall a s', s = String a s' -> Py.isspace a = false) ->
  Py.rstrip s = String c t -> Py.isspace c = false.
Proof.
  destruct s as [|a s']; cbn; [discriminate|]. intros Ha.
  destruct (Py.rstrip s').
  - destruct (Py.isspace a); [discriminate|]. intros [= <- _]. eauto.
  - intros [= <- _]. eauto.
Qed.

(** X21. Generating a message never raises and makes exactly one call,
    with the prompt of the lead; a message it returns has no whitespace at
    its start or at its end, and it returns none exactly when the API
    raised or answered with the empty string. *)
Theorem generate_message_trimmed w lead st :
  exists message,
    generate_message w lead st
    = (log (GenerateContent (_create_prompt lead)) st, Ok message)
    /\ (forall text, message = Some text ->
          (forall c t, text = String c t -> Py.isspace c = false)
          /\ (forall t c, text = t +:+ String c "" -> Py.isspace c = false))
    /\ (message = None
        <-> generate_content w
              (trace st ++ [GenerateContent (_create_prompt lead)])
            = ApiText ""
            \/ exists e,
                 generate_content w
                   (trace st ++ [GenerateContent (_create_prompt lead)])
                 = ApiRaise e).
Proof.
  unfold generate_message. cbn [log trace].
  destruct (generate_content w _) as [reply|e].
  - destruct reply as [|a reply']; cbn [Py.truthy].
    + exists None. split_and!; [reflexivity|discriminate|]. split; auto.
    + eexists. split_and!; [reflexivity| |].
      * intros text [= <-]. split.
        -- intros c t Heq. unfold Py.strip in Heq.
           eapply rstrip_first; [|exact Heq].
           intros b s' Hs. exact (lstrip_first _ _ _ Hs).
        -- intros t c Heq. unfold Py.strip in Heq.
           exact (rstrip_last _ _ _ Heq).
      * split; [discriminate|]. intros [?|[? ?]]; discriminate.
  - exists None. split_and!; [reflexivity|discriminate|]. split; eauto.
Qed.

(** The generation call of a turn of the loop, in either mode. *)
Lemma process_lead_prompts w self test_mode lead counts st :
  let res := process_lead w self test_mode lead counts st in
  exists evs,
    trace res.1 = trace st ++ GenerateContent (_create_prompt lead) :: evs
    /\ Spec.prompts evs = [].
Proof.
  intros res. subst res. destruct counts as [s e].
  unfold process_lead, mbind, M_bind, Fx.bind, mret, M_ret, Fx.ret.
  destruct (generate_message_run w lead st) as [message ->].
  assert (Hmark : forall status st1,
            exists evs,
              trace (mark w test_mode lead status st1).1 = trace st1 ++ evs
              /\ Spec.prompts evs = []).
  { intros status st1. destruct test_mode.
    - exists []. now rewrite app_nil_r.
    - rewrite mark_live_trace. eauto. }
  destruct (absent message).
  - destruct (Hmark "Error" (log (GenerateContent (_create_prompt lead)) st))
      as (evs & Htr & Hp).
    exists evs. split; [|exact Hp].
    destruct (mark _ _ _ _ _) as [st2 [[]|err]]; cbn [fst] in *;
      rewrite Htr; cbn; now rewrite <- app_assoc.
  - destruct (send_message_events w self lead (default "" message) test_mode
                (log (GenerateContent (_create_prompt lead)) st))
      as (evs1 & ok & detail & -> & Hcases).
    assert (Hp1 : Spec.prompts evs1 = []).
    { destruct Hcases as [[-> _]|[(_ & -> & _)|(_ & -> & _)]]; reflexivity. }
    set (st2 := mkState _ _).
    destruct (Hmark (if ok then "Sent" else "Error") st2) as (evs2 & Htr & Hp2).
    assert (Hpr : forall tr1 tr2,
              Spec.prompts tr1 = [] -> Spec.prompts tr2 = [] ->
              Spec.prompts (tr1 ++ tr2) = []).
    { intros tr1 tr2 H1 H2. induction tr1 as [|ev tr1 IH]; [exact H2|].
      destruct ev; cbn in *; try discriminate; auto. }
    destruct ok;
      destruct (mark _ _ _ _ _) as [st3 [[]|err]]; cbn [fst trace] in *;
      unfold sleep, log; cbn [fst trace]; rewrite Htr; subst st2;
      cbn [trace];
      [exists (evs1 ++ evs2 ++ [Sleep 1]) | exists (evs1 ++ evs2)
      |exists (evs1 ++ evs2 ++ [Sleep 1]) | exists (evs1 ++ evs2)];
      (split; [rewrite <- ?app_assoc; cbn; now rewrite <- ?app_assoc|]);
      repeat apply Hpr; auto.
Qed.

Lemma prompts_app tr1 tr2 :
  Spec.prompts (tr1 ++ tr2) = Spec.prompts tr1 ++ Spec.prompts tr2.
Proof.
  induction tr1 as [|ev tr1 IH]; [reflexivity|].
  destruct ev; cbn; now rewrite IH.
Qed.

Lemma campaign_loop_prompts w self test_mode leads :
  forall counts st st' counts',
    campaign_loop w self test_mode leads counts st = (st', Ok counts') ->
    Spec.prompts (trace st')
    = Spec.prompts (trace st) ++ (_create_prompt <$> leads).
Proof.
  induction leads as [|lead rest IH]; intros counts st st' counts'.
  - rewrite campaign_loop_nil. intros ?. simplify_eq. cbn.
    now rewrite app_nil_r.
  - rewrite campaign_loop_cons.
    destruct (process_lead_prompts w self test_mode lead counts st)
      as (evs & Htr & Hp).
    destruct (process_lead _ _ _ _ _ _) as [st1 [c1|err]];
      [|discriminate].
    intros Hrest. apply IH in Hrest. cbn [fst] in Htr.
    rewrite Hrest, Htr, prompts_app. cbn. rewrite Hp.
    now rewrite <- app_assoc.
Qed.

(** X22. A campaign run that returns, in test mode as well as live, has
    called the generation API exactly once per pending lead, in the order
    of the rows, each time with the prompt of that lead. *)
Theorem campaign_generation_calls w self test_mode sheet_name st st' r :
  run_outreach_campaign w self test_mode sheet_name st = (st', Ok r) ->
  exists values,
    store st !! sheet_name = Some values
    /\ Spec.prompts (trace st')
       = Spec.prompts (trace st)
         ++ (_create_prompt <$> filter is_pending (leads_of_values values)).
Proof.
  rewrite run_outreach_campaign_run. cbn zeta.
  destruct (sheets_get_error w _); [discriminate|].
  destruct (store st !! sheet_name) as [values|]; [|discriminate].
  intros Hrun. exists values. split; [reflexivity|].
  destruct (filter is_pending (leads_of_values values)) as [|l ls].
  - simplify_eq. cbn. now rewrite prompts_app.
  - destruct (campaign_loop _ _ _ _ _ _) as [st2 [c|err]] eqn:Hloop;
      [|discriminate].
    simplify_eq. apply campaign_loop_prompts in Hloop.
    rewrite Hloop. cbn [log trace]. rewrite prompts_app. cbn.
    now rewrite app_nil_r.
Qed.

Lemma campaign_generation_calls_witness :
  exists values,
    store (Sample.start {[default_sheet_name :=
             [Sample.headers;
              ["Ann"; "ann@example.com"; "AI"; "US"; "Pending"];
              ["Bob"; "abc"; "AI"; "US"; "Sent"]]]})
      !! default_sheet_name = Some values
    /\ Spec.prompts
         (trace (run_outreach_campaign Sample.calm Sample.sender true
                   default_sheet_name
                   (Sample.start {[default_sheet_name :=
                      [Sample.headers;
                       ["Ann"; "ann@example.com"; "AI"; "US"; "Pending"];
                       ["Bob"; "abc"; "AI"; "US"; "Sent"]]]})).1)
       = Spec.prompts []
         ++ (_create_prompt <$> filter is_pending (leads_of_values values)).
Proof.
  exact (campaign_generation_calls Sample.calm Sample.sender true
           default_sheet_name
           (Sample.start {[default_sheet_name :=
              [Sample.headers;
               ["Ann"; "ann@example.com"; "AI"; "US"; "Pending"];
               ["Bob"; "abc"; "AI"; "US"; "Sent"]]]})
           _ (Some (1, 0)) eq_refl).
Defined.

Lemma leads_after_write headers rows k row status :
  rows !! k = Some row ->
  leads_of_values (write_row_E (S k) status (headers :: rows))
  = <[k := Spec.set_status status (make_lead headers (2 + k) row)]>
      (leads_of_values (headers :: rows)).
Proof.
  intros Hrow. unfold write_row_E. apply lookup_lt_Some in Hrow as Hlt.
  rewrite decide_True by (cbn; lia).
  cbn. rewrite leads_from_alter.
  apply list_eq. intros j. rewrite list_lookup_alter, list_lookup_insert.
  rewrite leads_from_length.
  destruct (decide (k = j)) as [<-|Hne].
  - rewrite decide_True by (split; [reflexivity|exact Hlt]).
    rewrite leads_from_lookup, Hrow. reflexivity.
  - now rewrite decide_False by (intros [? _]; contradiction).
Qed.

(** X23. The reset script never raises; it makes at most one call, the
    write of "Pending" to row 3 of the tab "outreach_leads"; and when it
    prints its success line on a tab that has that row, the lead of row 3,
    whoever it is and whatever its status was, reads "Pending" and every
    other lead is as before. *)
Theorem reset_lead_status_effect w p st :
  exists line st',
    ResetStatus.reset_lead_status w p st = (st', Ok line)
    /\ (trace st' = trace st
        \/ trace st'
           = trace st ++ [SheetsUpdate default_sheet_name 3 "Pending"])
    /\ forall headers rows row,
         store st !! default_sheet_name = Some (headers :: rows) ->
         rows !! 1 = Some row ->
         line = "Successfully reset Abhishek's status to 'Pending'" ->
         exists values',
           store st' = <[default_sheet_name := values']> (store st)
           /\ leads_of_values values'
              = <[1 := Spec.set_status "Pending" (make_lead headers 3 row)]>
                  (leads_of_values (headers :: rows)).
Proof.
  unfold ResetStatus.reset_lead_status.
  destruct (sheets_auth_error p) as [e|].
  { do 2 eexists. split_and!; [reflexivity|left; reflexivity|].
    intros headers rows row _ _ Hline. discriminate Hline. }
  unfold mbind, M_bind, Fx.bind, attempt, mret, M_ret, Fx.ret.
  pose proof (update_lead_status_trace w 3 "Pending" default_sheet_name st)
    as Htr.
  destruct (update_lead_status w 3 "Pending" default_sheet_name st)
    as [st1 [[]|err]] eqn:Hup; cbn [fst] in Htr.
  - do 2 eexists. split_and!; [reflexivity|right; exact Htr|].
    intros headers rows row Htab Hrow _.
    apply update_lead_status_ok in Hup as (values & index & Hi & Hv & Hs & _).
    simplify_eq. eexists. split; [exact Hs|].
    now apply leads_after_write.
  - do 2 eexists. split_and!; [reflexivity|right; exact Htr|].
    intros headers rows row _ _ Hline. discriminate Hline.
Qed.

End GenerationAndReset.
